(** * Command-line construction for apko builds ([pkg/apkox/apko.go])

    A shallow embedding of the [ApkoBuilder] accumulator, of its setters,
    of [BuildCommand], and of the helpers [GetKeyringInfoForPreset] and
    [GetApkoConfigOrPreset], followed by the properties stated about them.

    Conventions.
    - A Go [string] is a sequence of bytes: [string] here.
    - A slice [[]string] is a [list string]; a field holding a nil slice holds
      [[]], since [append] and [range] treat the two alike.  Where a function
      returns a slice that may be nil next to an [error] that may be nil,
      both are [option]s, with [None] for nil.
    - [map[string]string] is a [gmap string string]; a nil map reads as the
      empty map.
    - A method with a pointer receiver takes the builder and returns the
      builder as it is after the call (explicit state passing).  A setter
      returns its receiver, so its single result is that builder. *)

From Stdlib Require Import String Ascii List Bool Lia.
From stdpp Require Import gmap strings.
Import ListNotations.

(** ** Errors *)

(** The value built by [fmt.Errorf]: an error carrying its message. *)
Inductive error : Type :=
| Errorf (msg : string).

Definition Error (e : error) : string :=
  match e with Errorf msg => msg end.

(** ** The builder *)

(** [type Architecture string] with its named constants. *)
Definition Architecture : Type := string.

Definition ArchX8664 : Architecture := "x86_64".
Definition ArchAarch64 : Architecture := "aarch64".
Definition ArchArmv7 : Architecture := "armv7".
Definition ArchPpc64le : Architecture := "ppc64le".
Definition ArchS390x : Architecture := "s390x".
Definition ApkoDefaultRepositoryURL : string := "cgr.dev/chainguard/apko".
Definition ApkoWolfiSigninRsaKeyPath : string :=
  "/etc/apk/keys/wolfi-signing.rsa.pub".
Definition ApkoAlpineSigninRsaKeyPath : string :=
  "/etc/apk/keys/alpine-devel@lists.alpinelinux.org-4a6a0840.rsa.pub".

Record ApkoBuilder : Type := {
  configFile : string;
  outputImage : string;
  tag : string;
  outputTarball : string;
  keyringPaths : list string;
  cacheDir : string;
  extraArgs : list string;
  wolfiKeyring : bool;
  alpineKeyring : bool;
  buildArch : string;
  buildContext : string;
  debug : bool;
  keyringAppendPlaintext : list string;
  noNetwork : bool;
  repositoryAppend : list string;
  timestamp : string;
  annotations : gmap string string;
  buildDate : string;
  lockfile : string;
  offline : bool;
  packageAppend : list string;
  sbom : bool;
  sbomFormats : list string;
  sbomPath : string;
  vcs : bool;
  logLevel : string;
  logPolicy : list string;
  workdir : string
}.

(** [NewApkoBuilder] returns [&ApkoBuilder{}]: every field holds its Go zero
    value (empty string, nil slice, nil map, [false]). *)
Definition NewApkoBuilder : ApkoBuilder :=
  {| configFile := EmptyString; outputImage := EmptyString; tag := EmptyString; outputTarball := EmptyString;
     keyringPaths := []; cacheDir := EmptyString; extraArgs := [];
     wolfiKeyring := false; alpineKeyring := false; buildArch := EmptyString;
     buildContext := EmptyString; debug := false; keyringAppendPlaintext := [];
     noNetwork := false; repositoryAppend := []; timestamp := EmptyString;
     annotations := ∅; buildDate := EmptyString; lockfile := EmptyString; offline := false;
     packageAppend := []; sbom := false; sbomFormats := []; sbomPath := EmptyString;
     vcs := false; logLevel := EmptyString; logPolicy := []; workdir := EmptyString |}.

(** [WithBuildArch]: [b.buildArch = string(arch)]; the receiver is returned. *)
Definition WithBuildArch (arch : Architecture) (b : ApkoBuilder) : ApkoBuilder :=
  {| configFile := configFile b; outputImage := outputImage b; tag := tag b;
     outputTarball := outputTarball b; keyringPaths := keyringPaths b;
     cacheDir := cacheDir b; extraArgs := extraArgs b;
     wolfiKeyring := wolfiKeyring b; alpineKeyring := alpineKeyring b;
     buildArch := arch; buildContext := buildContext b; debug := debug b;
     keyringAppendPlaintext := keyringAppendPlaintext b;
     noNetwork := noNetwork b; repositoryAppend := repositoryAppend b;
     timestamp := timestamp b; annotations := annotations b;
     buildDate := buildDate b; lockfile := lockfile b; offline := offline b;
     packageAppend := packageAppend b; sbom := sbom b;
     sbomFormats := sbomFormats b; sbomPath := sbomPath b; vcs := vcs b;
     logLevel := logLevel b; logPolicy := logPolicy b; workdir := workdir b |}.

(** [WithConfigFile]: [b.configFile = configFile]; the receiver is returned. *)
Definition WithConfigFile (cfg : string) (b : ApkoBuilder) : ApkoBuilder :=
  {| configFile := cfg; outputImage := outputImage b; tag := tag b;
     outputTarball := outputTarball b; keyringPaths := keyringPaths b;
     cacheDir := cacheDir b; extraArgs := extraArgs b;
     wolfiKeyring := wolfiKeyring b; alpineKeyring := alpineKeyring b;
     buildArch := buildArch b; buildContext := buildContext b;
     debug := debug b; keyringAppendPlaintext := keyringAppendPlaintext b;
     noNetwork := noNetwork b; repositoryAppend := repositoryAppend b;
     timestamp := timestamp b; annotations := annotations b;
     buildDate := buildDate b; lockfile := lockfile b; offline := offline b;
     packageAppend := packageAppend b; sbom := sbom b;
     sbomFormats := sbomFormats b; sbomPath := sbomPath b; vcs := vcs b;
     logLevel := logLevel b; logPolicy := logPolicy b; workdir := workdir b |}.

(** [WithOutputImage]: [b.outputImage = outputImage]; the receiver is returned. *)
Definition WithOutputImage (img : string) (b : ApkoBuilder) : ApkoBuilder :=
  {| configFile := configFile b; outputImage := img; tag := tag b;
     outputTarball := outputTarball b; keyringPaths := keyringPaths b;
     cacheDir := cacheDir b; extraArgs := extraArgs b;
     wolfiKeyring := wolfiKeyring b; alpineKeyring := alpineKeyring b;
     buildArch := buildArch b; buildContext := buildContext b;
     debug := debug b; keyringAppendPlaintext := keyringAppendPlaintext b;
     noNetwork := noNetwork b; repositoryAppend := repositoryAppend b;
     timestamp := timestamp b; annotations := annotations b;
     buildDate := buildDate b; lockfile := lockfile b; offline := offline b;
     packageAppend := packageAppend b; sbom := sbom b;
     sbomFormats := sbomFormats b; sbomPath := sbomPath b; vcs := vcs b;
     logLevel := logLevel b; logPolicy := logPolicy b; workdir := workdir b |}.

(** [WithOutputTarball]: [b.outputTarball = outputTarball]; the receiver is returned. *)
Definition WithOutputTarball (tar : string) (b : ApkoBuilder) : ApkoBuilder :=
  {| configFile := configFile b; outputImage := outputImage b; tag := tag b;
     outputTarball := tar; keyringPaths := keyringPaths b;
     cacheDir := cacheDir b; extraArgs := extraArgs b;
     wolfiKeyring := wolfiKeyring b; alpineKeyring := alpineKeyring b;
     buildArch := buildArch b; buildContext := buildContext b;
     debug := debug b; keyringAppendPlaintext := keyringAppendPlaintext b;
     noNetwork := noNetwork b; repositoryAppend := repositoryAppend b;
     timestamp := timestamp b; annotations := annotations b;
     buildDate := buildDate b; lockfile := lockfile b; offline := offline b;
     packageAppend := packageAppend b; sbom := sbom b;
     sbomFormats := sbomFormats b; sbomPath := sbomPath b; vcs := vcs b;
     logLevel := logLevel b; logPolicy := logPolicy b; workdir := workdir b |}.

(** [WithKeyring]: [b.keyringPaths = append(b.keyringPaths, keyringPath)]; the receiver is returned. *)
Definition WithKeyring (keyringPath : string) (b : ApkoBuilder) : ApkoBuilder :=
  {| configFile := configFile b; outputImage := outputImage b; tag := tag b;
     outputTarball := outputTarball b;
     keyringPaths := keyringPaths b ++ [keyringPath]; cacheDir := cacheDir b;
     extraArgs := extraArgs b; wolfiKeyring := wolfiKeyring b;
     alpineKeyring := alpineKeyring b; buildArch := buildArch b;
     buildContext := buildContext b; debug := debug b;
     keyringAppendPlaintext := keyringAppendPlaintext b;
     noNetwork := noNetwork b; repositoryAppend := repositoryAppend b;
     timestamp := timestamp b; annotations := annotations b;
     buildDate := buildDate b; lockfile := lockfile b; offline := offline b;
     packageAppend := packageAppend b; sbom := sbom b;
     sbomFormats := sbomFormats b; sbomPath := sbomPath b; vcs := vcs b;
     logLevel := logLevel b; logPolicy := logPolicy b; workdir := workdir b |}.

(** [WithWolfiKeyring]: [b.wolfiKeyring = true]; the receiver is returned. *)
Definition WithWolfiKeyring (b : ApkoBuilder) : ApkoBuilder :=
  {| configFile := configFile b; outputImage := outputImage b; tag := tag b;
     outputTarball := outputTarball b; keyringPaths := keyringPaths b;
     cacheDir := cacheDir b; extraArgs := extraArgs b; wolfiKeyring := true;
     alpineKeyring := alpineKeyring b; buildArch := buildArch b;
     buildContext := buildContext b; debug := debug b;
     keyringAppendPlaintext := keyringAppendPlaintext b;
     noNetwork := noNetwork b; repositoryAppend := repositoryAppend b;
     timestamp := timestamp b; annotations := annotations b;
     buildDate := buildDate b; lockfile := lockfile b; offline := offline b;
     packageAppend := packageAppend b; sbom := sbom b;
     sbomFormats := sbomFormats b; sbomPath := sbomPath b; vcs := vcs b;
     logLevel := logLevel b; logPolicy := logPolicy b; workdir := workdir b |}.

(** [WithAlpineKeyring]: [b.alpineKeyring = true]; the receiver is returned. *)
Definition WithAlpineKeyring (b : ApkoBuilder) : ApkoBuilder :=
  {| configFile := configFile b; outputImage := outputImage b; tag := tag b;
     outputTarball := outputTarball b; keyringPaths := keyringPaths b;
     cacheDir := cacheDir b; extraArgs := extraArgs b;
     wolfiKeyring := wolfiKeyring b; alpineKeyring := true;
     buildArch := buildArch b; buildContext := buildContext b;
     debug := debug b; keyringAppendPlaintext := keyringAppendPlaintext b;
     noNetwork := noNetwork b; repositoryAppend := repositoryAppend b;
     timestamp := timestamp b; annotations := annotations b;
     buildDate := buildDate b; lockfile := lockfile b; offline := offline b;
     packageAppend := packageAppend b; sbom := sbom b;
     sbomFormats := sbomFormats b; sbomPath := sbomPath b; vcs := vcs b;
     logLevel := logLevel b; logPolicy := logPolicy b; workdir := workdir b |}.

(** [WithArchitecture]: [b.buildArch = arch]; the receiver is returned. *)
Definition WithArchitecture (arch : string) (b : ApkoBuilder) : ApkoBuilder :=
  {| configFile := configFile b; outputImage := outputImage b; tag := tag b;
     outputTarball := outputTarball b; keyringPaths := keyringPaths b;
     cacheDir := cacheDir b; extraArgs := extraArgs b;
     wolfiKeyring := wolfiKeyring b; alpineKeyring := alpineKeyring b;
     buildArch := arch; buildContext := buildContext b; debug := debug b;
     keyringAppendPlaintext := keyringAppendPlaintext b;
     noNetwork := noNetwork b; repositoryAppend := repositoryAppend b;
     timestamp := timestamp b; annotations := annotations b;
     buildDate := buildDate b; lockfile := lockfile b; offline := offline b;
     packageAppend := packageAppend b; sbom := sbom b;
     sbomFormats := sbomFormats b; sbomPath := sbomPath b; vcs := vcs b;
     logLevel := logLevel b; logPolicy := logPolicy b; workdir := workdir b |}.

(** [WithCacheDir]: [b.cacheDir = cacheDir]; the receiver is returned. *)
Definition WithCacheDir (dir : string) (b : ApkoBuilder) : ApkoBuilder :=
  {| configFile := configFile b; outputImage := outputImage b; tag := tag b;
     outputTarball := outputTarball b; keyringPaths := keyringPaths b;
     cacheDir := dir; extraArgs := extraArgs b; wolfiKeyring := wolfiKeyring b;
     alpineKeyring := alpineKeyring b; buildArch := buildArch b;
     buildContext := buildContext b; debug := debug b;
     keyringAppendPlaintext := keyringAppendPlaintext b;
     noNetwork := noNetwork b; repositoryAppend := repositoryAppend b;
     timestamp := timestamp b; annotations := annotations b;
     buildDate := buildDate b; lockfile := lockfile b; offline := offline b;
     packageAppend := packageAppend b; sbom := sbom b;
     sbomFormats := sbomFormats b; sbomPath := sbomPath b; vcs := vcs b;
     logLevel := logLevel b; logPolicy := logPolicy b; workdir := workdir b |}.

(** [WithExtraArg]: [b.extraArgs = append(b.extraArgs, arg)]; the receiver is returned. *)
Definition WithExtraArg (arg : string) (b : ApkoBuilder) : ApkoBuilder :=
  {| configFile := configFile b; outputImage := outputImage b; tag := tag b;
     outputTarball := outputTarball b; keyringPaths := keyringPaths b;
     cacheDir := cacheDir b; extraArgs := extraArgs b ++ [arg];
     wolfiKeyring := wolfiKeyring b; alpineKeyring := alpineKeyring b;
     buildArch := buildArch b; buildContext := buildContext b;
     debug := debug b; keyringAppendPlaintext := keyringAppendPlaintext b;
     noNetwork := noNetwork b; repositoryAppend := repositoryAppend b;
     timestamp := timestamp b; annotations := annotations b;
     buildDate := buildDate b; lockfile := lockfile b; offline := offline b;
     packageAppend := packageAppend b; sbom := sbom b;
     sbomFormats := sbomFormats b; sbomPath := sbomPath b; vcs := vcs b;
     logLevel := logLevel b; logPolicy := logPolicy b; workdir := workdir b |}.

(** [WithBuildContext]: [b.buildContext = dir]; the receiver is returned. *)
Definition WithBuildContext (dir : string) (b : ApkoBuilder) : ApkoBuilder :=
  {| configFile := configFile b; outputImage := outputImage b; tag := tag b;
     outputTarball := outputTarball b; keyringPaths := keyringPaths b;
     cacheDir := cacheDir b; extraArgs := extraArgs b;
     wolfiKeyring := wolfiKeyring b; alpineKeyring := alpineKeyring b;
     buildArch := buildArch b; buildContext := dir; debug := debug b;
     keyringAppendPlaintext := keyringAppendPlaintext b;
     noNetwork := noNetwork b; repositoryAppend := repositoryAppend b;
     timestamp := timestamp b; annotations := annotations b;
     buildDate := buildDate b; lockfile := lockfile b; offline := offline b;
     packageAppend := packageAppend b; sbom := sbom b;
     sbomFormats := sbomFormats b; sbomPath := sbomPath b; vcs := vcs b;
     logLevel := logLevel b; logPolicy := logPolicy b; workdir := workdir b |}.

(** [WithDebug]: [b.debug = true]; the receiver is returned. *)
Definition WithDebug (b : ApkoBuilder) : ApkoBuilder :=
  {| configFile := configFile b; outputImage := outputImage b; tag := tag b;
     outputTarball := outputTarball b; keyringPaths := keyringPaths b;
     cacheDir := cacheDir b; extraArgs := extraArgs b;
     wolfiKeyring := wolfiKeyring b; alpineKeyring := alpineKeyring b;
     buildArch := buildArch b; buildContext := buildContext b; debug := true;
     keyringAppendPlaintext := keyringAppendPlaintext b;
     noNetwork := noNetwork b; repositoryAppend := repositoryAppend b;
     timestamp := timestamp b; annotations := annotations b;
     buildDate := buildDate b; lockfile := lockfile b; offline := offline b;
     packageAppend := packageAppend b; sbom := sbom b;
     sbomFormats := sbomFormats b; sbomPath := sbomPath b; vcs := vcs b;
     logLevel := logLevel b; logPolicy := logPolicy b; workdir := workdir b |}.

(** [WithKeyringAppendPlaintext]: [b.keyringAppendPlaintext = append(b.keyringAppendPlaintext, keyring)]; the receiver is returned. *)
Definition WithKeyringAppendPlaintext (keyring : string) (b : ApkoBuilder) : ApkoBuilder :=
  {| configFile := configFile b; outputImage := outputImage b; tag := tag b;
     outputTarball := outputTarball b; keyringPaths := keyringPaths b;
     cacheDir := cacheDir b; extraArgs := extraArgs b;
     wolfiKeyring := wolfiKeyring b; alpineKeyring := alpineKeyring b;
     buildArch := buildArch b; buildContext := buildContext b;
     debug := debug b;
     keyringAppendPlaintext := keyringAppendPlaintext b ++ [keyring];
     noNetwork := noNetwork b; repositoryAppend := repositoryAppend b;
     timestamp := timestamp b; annotations := annotations b;
     buildDate := buildDate b; lockfile := lockfile b; offline := offline b;
     packageAppend := packageAppend b; sbom := sbom b;
     sbomFormats := sbomFormats b; sbomPath := sbomPath b; vcs := vcs b;
     logLevel := logLevel b; logPolicy := logPolicy b; workdir := workdir b |}.

(** [WithNoNetwork]: [b.noNetwork = true]; the receiver is returned. *)
Definition WithNoNetwork (b : ApkoBuilder) : ApkoBuilder :=
  {| configFile := configFile b; outputImage := outputImage b; tag := tag b;
     outputTarball := outputTarball b; keyringPaths := keyringPaths b;
     cacheDir := cacheDir b; extraArgs := extraArgs b;
     wolfiKeyring := wolfiKeyring b; alpineKeyring := alpineKeyring b;
     buildArch := buildArch b; buildContext := buildContext b;
     debug := debug b; keyringAppendPlaintext := keyringAppendPlaintext b;
     noNetwork := true; repositoryAppend := repositoryAppend b;
     timestamp := timestamp b; annotations := annotations b;
     buildDate := buildDate b; lockfile := lockfile b; offline := offline b;
     packageAppend := packageAppend b; sbom := sbom b;
     sbomFormats := sbomFormats b; sbomPath := sbomPath b; vcs := vcs b;
     logLevel := logLevel b; logPolicy := logPolicy b; workdir := workdir b |}.

(** [WithRepositoryAppend]: [b.repositoryAppend = append(b.repositoryAppend, repo)]; the receiver is returned. *)
Definition WithRepositoryAppend (repo : string) (b : ApkoBuilder) : ApkoBuilder :=
  {| configFile := configFile b; outputImage := outputImage b; tag := tag b;
     outputTarball := outputTarball b; keyringPaths := keyringPaths b;
     cacheDir := cacheDir b; extraArgs := extraArgs b;
     wolfiKeyring := wolfiKeyring b; alpineKeyring := alpineKeyring b;
     buildArch := buildArch b; buildContext := buildContext b;
     debug := debug b; keyringAppendPlaintext := keyringAppendPlaintext b;
     noNetwork := noNetwork b;
     repositoryAppend := repositoryAppend b ++ [repo];
     timestamp := timestamp b; annotations := annotations b;
     buildDate := buildDate b; lockfile := lockfile b; offline := offline b;
     packageAppend := packageAppend b; sbom := sbom b;
     sbomFormats := sbomFormats b; sbomPath := sbomPath b; vcs := vcs b;
     logLevel := logLevel b; logPolicy := logPolicy b; workdir := workdir b |}.

(** [WithTimestamp]: [b.timestamp = timestamp]; the receiver is returned. *)
Definition WithTimestamp (ts : string) (b : ApkoBuilder) : ApkoBuilder :=
  {| configFile := configFile b; outputImage := outputImage b; tag := tag b;
     outputTarball := outputTarball b; keyringPaths := keyringPaths b;
     cacheDir := cacheDir b; extraArgs := extraArgs b;
     wolfiKeyring := wolfiKeyring b; alpineKeyring := alpineKeyring b;
     buildArch := buildArch b; buildContext := buildContext b;
     debug := debug b; keyringAppendPlaintext := keyringAppendPlaintext b;
     noNetwork := noNetwork b; repositoryAppend := repositoryAppend b;
     timestamp := ts; annotations := annotations b; buildDate := buildDate b;
     lockfile := lockfile b; offline := offline b;
     packageAppend := packageAppend b; sbom := sbom b;
     sbomFormats := sbomFormats b; sbomPath := sbomPath b; vcs := vcs b;
     logLevel := logLevel b; logPolicy := logPolicy b; workdir := workdir b |}.

(** [WithTag]: [b.tag = tag]; the receiver is returned. *)
Definition WithTag (t : string) (b : ApkoBuilder) : ApkoBuilder :=
  {| configFile := configFile b; outputImage := outputImage b; tag := t;
     outputTarball := outputTarball b; keyringPaths := keyringPaths b;
     cacheDir := cacheDir b; extraArgs := extraArgs b;
     wolfiKeyring := wolfiKeyring b; alpineKeyring := alpineKeyring b;
     buildArch := buildArch b; buildContext := buildContext b;
     debug := debug b; keyringAppendPlaintext := keyringAppendPlaintext b;
     noNetwork := noNetwork b; repositoryAppend := repositoryAppend b;
     timestamp := timestamp b; annotations := annotations b;
     buildDate := buildDate b; lockfile := lockfile b; offline := offline b;
     packageAppend := packageAppend b; sbom := sbom b;
     sbomFormats := sbomFormats b; sbomPath := sbomPath b; vcs := vcs b;
     logLevel := logLevel b; logPolicy := logPolicy b; workdir := workdir b |}.

(** [WithAnnotations]: [b.annotations = annotations]; the receiver is returned. *)
Definition WithAnnotations (ann : gmap string string) (b : ApkoBuilder) : ApkoBuilder :=
  {| configFile := configFile b; outputImage := outputImage b; tag := tag b;
     outputTarball := outputTarball b; keyringPaths := keyringPaths b;
     cacheDir := cacheDir b; extraArgs := extraArgs b;
     wolfiKeyring := wolfiKeyring b; alpineKeyring := alpineKeyring b;
     buildArch := buildArch b; buildContext := buildContext b;
     debug := debug b; keyringAppendPlaintext := keyringAppendPlaintext b;
     noNetwork := noNetwork b; repositoryAppend := repositoryAppend b;
     timestamp := timestamp b; annotations := ann; buildDate := buildDate b;
     lockfile := lockfile b; offline := offline b;
     packageAppend := packageAppend b; sbom := sbom b;
     sbomFormats := sbomFormats b; sbomPath := sbomPath b; vcs := vcs b;
     logLevel := logLevel b; logPolicy := logPolicy b; workdir := workdir b |}.

(** [WithBuildDate]: [b.buildDate = date]; the receiver is returned. *)
Definition WithBuildDate (date : string) (b : ApkoBuilder) : ApkoBuilder :=
  {| configFile := configFile b; outputImage := outputImage b; tag := tag b;
     outputTarball := outputTarball b; keyringPaths := keyringPaths b;
     cacheDir := cacheDir b; extraArgs := extraArgs b;
     wolfiKeyring := wolfiKeyring b; alpineKeyring := alpineKeyring b;
     buildArch := buildArch b; buildContext := buildContext b;
     debug := debug b; keyringAppendPlaintext := keyringAppendPlaintext b;
     noNetwork := noNetwork b; repositoryAppend := repositoryAppend b;
     timestamp := timestamp b; annotations := annotations b; buildDate := date;
     lockfile := lockfile b; offline := offline b;
     packageAppend := packageAppend b; sbom := sbom b;
     sbomFormats := sbomFormats b; sbomPath := sbomPath b; vcs := vcs b;
     logLevel := logLevel b; logPolicy := logPolicy b; workdir := workdir b |}.

(** [WithLockfile]: [b.lockfile = path]; the receiver is returned. *)
Definition WithLockfile (path : string) (b : ApkoBuilder) : ApkoBuilder :=
  {| configFile := configFile b; outputImage := outputImage b; tag := tag b;
     outputTarball := outputTarball b; keyringPaths := keyringPaths b;
     cacheDir := cacheDir b; extraArgs := extraArgs b;
     wolfiKeyring := wolfiKeyring b; alpineKeyring := alpineKeyring b;
     buildArch := buildArch b; buildContext := buildContext b;
     debug := debug b; keyringAppendPlaintext := keyringAppendPlaintext b;
     noNetwork := noNetwork b; repositoryAppend := repositoryAppend b;
     timestamp := timestamp b; annotations := annotations b;
     buildDate := buildDate b; lockfile := path; offline := offline b;
     packageAppend := packageAppend b; sbom := sbom b;
     sbomFormats := sbomFormats b; sbomPath := sbomPath b; vcs := vcs b;
     logLevel := logLevel b; logPolicy := logPolicy b; workdir := workdir b |}.

(** [WithOffline]: [b.offline = true]; the receiver is returned. *)
Definition WithOffline (b : ApkoBuilder) : ApkoBuilder :=
  {| configFile := configFile b; outputImage := outputImage b; tag := tag b;
     outputTarball := outputTarball b; keyringPaths := keyringPaths b;
     cacheDir := cacheDir b; extraArgs := extraArgs b;
     wolfiKeyring := wolfiKeyring b; alpineKeyring := alpineKeyring b;
     buildArch := buildArch b; buildContext := buildContext b;
     debug := debug b; keyringAppendPlaintext := keyringAppendPlaintext b;
     noNetwork := noNetwork b; repositoryAppend := repositoryAppend b;
     timestamp := timestamp b; annotations := annotations b;
     buildDate := buildDate b; lockfile := lockfile b; offline := true;
     packageAppend := packageAppend b; sbom := sbom b;
     sbomFormats := sbomFormats b; sbomPath := sbomPath b; vcs := vcs b;
     logLevel := logLevel b; logPolicy := logPolicy b; workdir := workdir b |}.

(** [WithPackageAppend]: [b.packageAppend = append(b.packageAppend, packages...)]; the receiver is returned. *)
Definition WithPackageAppend (packages : list string) (b : ApkoBuilder) : ApkoBuilder :=
  {| configFile := configFile b; outputImage := outputImage b; tag := tag b;
     outputTarball := outputTarball b; keyringPaths := keyringPaths b;
     cacheDir := cacheDir b; extraArgs := extraArgs b;
     wolfiKeyring := wolfiKeyring b; alpineKeyring := alpineKeyring b;
     buildArch := buildArch b; buildContext := buildContext b;
     debug := debug b; keyringAppendPlaintext := keyringAppendPlaintext b;
     noNetwork := noNetwork b; repositoryAppend := repositoryAppend b;
     timestamp := timestamp b; annotations := annotations b;
     buildDate := buildDate b; lockfile := lockfile b; offline := offline b;
     packageAppend := packageAppend b ++ packages; sbom := sbom b;
     sbomFormats := sbomFormats b; sbomPath := sbomPath b; vcs := vcs b;
     logLevel := logLevel b; logPolicy := logPolicy b; workdir := workdir b |}.

(** [WithSBOM]: [b.sbom = enable]; the receiver is returned. *)
Definition WithSBOM (enable : bool) (b : ApkoBuilder) : ApkoBuilder :=
  {| configFile := configFile b; outputImage := outputImage b; tag := tag b;
     outputTarball := outputTarball b; keyringPaths := keyringPaths b;
     cacheDir := cacheDir b; extraArgs := extraArgs b;
     wolfiKeyring := wolfiKeyring b; alpineKeyring := alpineKeyring b;
     buildArch := buildArch b; buildContext := buildContext b;
     debug := debug b; keyringAppendPlaintext := keyringAppendPlaintext b;
     noNetwork := noNetwork b; repositoryAppend := repositoryAppend b;
     timestamp := timestamp b; annotations := annotations b;
     buildDate := buildDate b; lockfile := lockfile b; offline := offline b;
     packageAppend := packageAppend b; sbom := enable;
     sbomFormats := sbomFormats b; sbomPath := sbomPath b; vcs := vcs b;
     logLevel := logLevel b; logPolicy := logPolicy b; workdir := workdir b |}.

(** [WithSBOMFormats]: [b.sbomFormats = formats]; the receiver is returned. *)
Definition WithSBOMFormats (formats : list string) (b : ApkoBuilder) : ApkoBuilder :=
  {| configFile := configFile b; outputImage := outputImage b; tag := tag b;
     outputTarball := outputTarball b; keyringPaths := keyringPaths b;
     cacheDir := cacheDir b; extraArgs := extraArgs b;
     wolfiKeyring := wolfiKeyring b; alpineKeyring := alpineKeyring b;
     buildArch := buildArch b; buildContext := buildContext b;
     debug := debug b; keyringAppendPlaintext := keyringAppendPlaintext b;
     noNetwork := noNetwork b; repositoryAppend := repositoryAppend b;
     timestamp := timestamp b; annotations := annotations b;
     buildDate := buildDate b; lockfile := lockfile b; offline := offline b;
     packageAppend := packageAppend b; sbom := sbom b; sbomFormats := formats;
     sbomPath := sbomPath b; vcs := vcs b; logLevel := logLevel b;
     logPolicy := logPolicy b; workdir := workdir b |}.

(** [WithSBOMPath]: [b.sbomPath = path]; the receiver is returned. *)
Definition WithSBOMPath (path : string) (b : ApkoBuilder) : ApkoBuilder :=
  {| configFile := configFile b; outputImage := outputImage b; tag := tag b;
     outputTarball := outputTarball b; keyringPaths := keyringPaths b;
     cacheDir := cacheDir b; extraArgs := extraArgs b;
     wolfiKeyring := wolfiKeyring b; alpineKeyring := alpineKeyring b;
     buildArch := buildArch b; buildContext := buildContext b;
     debug := debug b; keyringAppendPlaintext := keyringAppendPlaintext b;
     noNetwork := noNetwork b; repositoryAppend := repositoryAppend b;
     timestamp := timestamp b; annotations := annotations b;
     buildDate := buildDate b; lockfile := lockfile b; offline := offline b;
     packageAppend := packageAppend b; sbom := sbom b;
     sbomFormats := sbomFormats b; sbomPath := path; vcs := vcs b;
     logLevel := logLevel b; logPolicy := logPolicy b; workdir := workdir b |}.

(** [WithVCS]: [b.vcs = enable]; the receiver is returned. *)
Definition WithVCS (enable : bool) (b : ApkoBuilder) : ApkoBuilder :=
  {| configFile := configFile b; outputImage := outputImage b; tag := tag b;
     outputTarball := outputTarball b; keyringPaths := keyringPaths b;
     cacheDir := cacheDir b; extraArgs := extraArgs b;
     wolfiKeyring := wolfiKeyring b; alpineKeyring := alpineKeyring b;
     buildArch := buildArch b; buildContext := buildContext b;
     debug := debug b; keyringAppendPlaintext := keyringAppendPlaintext b;
     noNetwork := noNetwork b; repositoryAppend := repositoryAppend b;
     timestamp := timestamp b; annotations := annotations b;
     buildDate := buildDate b; lockfile := lockfile b; offline := offline b;
     packageAppend := packageAppend b; sbom := sbom b;
     sbomFormats := sbomFormats b; sbomPath := sbomPath b; vcs := enable;
     logLevel := logLevel b; logPolicy := logPolicy b; workdir := workdir b |}.

(** [WithLogLevel]: [b.logLevel = level]; the receiver is returned. *)
Definition WithLogLevel (level : string) (b : ApkoBuilder) : ApkoBuilder :=
  {| configFile := configFile b; outputImage := outputImage b; tag := tag b;
     outputTarball := outputTarball b; keyringPaths := keyringPaths b;
     cacheDir := cacheDir b; extraArgs := extraArgs b;
     wolfiKeyring := wolfiKeyring b; alpineKeyring := alpineKeyring b;
     buildArch := buildArch b; buildContext := buildContext b;
     debug := debug b; keyringAppendPlaintext := keyringAppendPlaintext b;
     noNetwork := noNetwork b; repositoryAppend := repositoryAppend b;
     timestamp := timestamp b; annotations := annotations b;
     buildDate := buildDate b; lockfile := lockfile b; offline := offline b;
     packageAppend := packageAppend b; sbom := sbom b;
     sbomFormats := sbomFormats b; sbomPath := sbomPath b; vcs := vcs b;
     logLevel := level; logPolicy := logPolicy b; workdir := workdir b |}.

(** [WithLogPolicy]: [b.logPolicy = policies]; the receiver is returned. *)
Definition WithLogPolicy (policies : list string) (b : ApkoBuilder) : ApkoBuilder :=
  {| configFile := configFile b; outputImage := outputImage b; tag := tag b;
     outputTarball := outputTarball b; keyringPaths := keyringPaths b;
     cacheDir := cacheDir b; extraArgs := extraArgs b;
     wolfiKeyring := wolfiKeyring b; alpineKeyring := alpineKeyring b;
     buildArch := buildArch b; buildContext := buildContext b;
     debug := debug b; keyringAppendPlaintext := keyringAppendPlaintext b;
     noNetwork := noNetwork b; repositoryAppend := repositoryAppend b;
     timestamp := timestamp b; annotations := annotations b;
     buildDate := buildDate b; lockfile := lockfile b; offline := offline b;
     packageAppend := packageAppend b; sbom := sbom b;
     sbomFormats := sbomFormats b; sbomPath := sbomPath b; vcs := vcs b;
     logLevel := logLevel b; logPolicy := policies; workdir := workdir b |}.

(** [WithWorkdir]: [b.workdir = dir]; the receiver is returned. *)
Definition WithWorkdir (dir : string) (b : ApkoBuilder) : ApkoBuilder :=
  {| configFile := configFile b; outputImage := outputImage b; tag := tag b;
     outputTarball := outputTarball b; keyringPaths := keyringPaths b;
     cacheDir := cacheDir b; extraArgs := extraArgs b;
     wolfiKeyring := wolfiKeyring b; alpineKeyring := alpineKeyring b;
     buildArch := buildArch b; buildContext := buildContext b;
     debug := debug b; keyringAppendPlaintext := keyringAppendPlaintext b;
     noNetwork := noNetwork b; repositoryAppend := repositoryAppend b;
     timestamp := timestamp b; annotations := annotations b;
     buildDate := buildDate b; lockfile := lockfile b; offline := offline b;
     packageAppend := packageAppend b; sbom := sbom b;
     sbomFormats := sbomFormats b; sbomPath := sbomPath b; vcs := vcs b;
     logLevel := logLevel b; logPolicy := logPolicy b; workdir := dir |}.

(** ** Keyring presets *)

Record KeyringInfo : Type := {
  KeyURL : string;
  KeyPath : string
}.

(** [GetKeyringInfoForPreset]: a [switch] on the preset name, compared as
    it is given.  The default branch returns the zero [KeyringInfo] and
    [fmt.Errorf("unsupported preset: %s", preset)]. *)
Definition GetKeyringInfoForPreset (preset : string)
  : KeyringInfo * option error :=
  if String.eqb preset "alpine" then
    ({| KeyURL := "https://alpinelinux.org/keys/alpine-devel@lists.alpinelinux.org-4a6a0840.rsa.pub";
        KeyPath := "/etc/apk/keys/alpine-devel@lists.alpinelinux.org-4a6a0840.rsa.pub" |},
     None)
  else if String.eqb preset "wolfi" then
    ({| KeyURL := "https://packages.wolfi.dev/os/wolfi-signing.rsa.pub";
        KeyPath := "/etc/apk/keys/wolfi-signing.rsa.pub" |},
     None)
  else
    ({| KeyURL := EmptyString; KeyPath := EmptyString |},
     Some (Errorf ("unsupported preset: " +:+ preset))).

(** [WithKeyRingWolfi]: when the lookup gives no error,
    [b.keyringPaths = append(b.keyringPaths, wolfiKeyInfo.KeyPath)], which is
    the assignment of [WithKeyring]; otherwise the builder is left as it is. *)
Definition WithKeyRingWolfi (b : ApkoBuilder) : ApkoBuilder :=
  let '(wolfiKeyInfo, err) := GetKeyringInfoForPreset "wolfi" in
  match err with
  | None => WithKeyring (KeyPath wolfiKeyInfo) b
  | Some _ => b
  end.

(** [WithKeyRingAlpine]: the same with the preset ["alpine"]. *)
Definition WithKeyRingAlpine (b : ApkoBuilder) : ApkoBuilder :=
  let '(alpineKeyInfo, err) := GetKeyringInfoForPreset "alpine" in
  match err with
  | None => WithKeyring (KeyPath alpineKeyInfo) b
  | Some _ => b
  end.

(** ** BuildCommand *)

(** What [BuildCommand] hands back: the slice and the error, each nil or
    not. *)
Definition result : Type := (option (list string) * option error)%type.

(** [fmt.Sprintf("%s:%s", image, tag)]. *)
Definition Sprintf_ref (image tag : string) : string :=
  image +:+ ":" +:+ tag.

(** [BuildCommand], statement by statement.  The three guards return early
    with a nil slice; after them the tag default is written to the builder
    ([b.tag = "latest"], the assignment of [WithTag]); then [cmd] grows by
    one [append] per statement, the keyring loop being a left fold over
    [b.keyringPaths].  The first component is the builder after the call. *)
Definition BuildCommand (b : ApkoBuilder) : ApkoBuilder * result :=
  if String.eqb (configFile b) EmptyString then
    (b, (None, Some (Errorf "config file is required")))
  else if String.eqb (outputImage b) EmptyString then
    (b, (None, Some (Errorf "output image name is required")))
  else if String.eqb (outputTarball b) EmptyString then
    (b, (None, Some (Errorf "output tarball path is required")))
  else
    let b := if String.eqb (tag b) EmptyString then WithTag "latest" b else b in
    let cmd := ["apko"; "build"] in
    let cmd :=
      if negb (String.eqb (cacheDir b) EmptyString)
      then cmd ++ ["--cache-dir"; cacheDir b] else cmd in
    let cmd :=
      fold_left (fun cmd k => cmd ++ ["--keyring-append"; k])
                (keyringPaths b) cmd in
    let cmd :=
      if negb (String.eqb (buildArch b) EmptyString)
      then cmd ++ ["--arch"; buildArch b] else cmd in
    let cmd :=
      if negb (String.eqb (buildContext b) EmptyString)
      then cmd ++ ["--build-repository-append"; buildContext b] else cmd in
    let cmd := if negb (sbom b) then cmd ++ ["--sbom=false"] else cmd in
    let cmd := if negb (vcs b) then cmd ++ ["--vcs=false"] else cmd in
    let imageRef := Sprintf_ref (outputImage b) (tag b) in
    let cmd := cmd ++ [configFile b; imageRef; outputTarball b] in
    let cmd := cmd ++ extraArgs b in
    (b, (Some cmd, None)).

(** ** Configuration file check *)

(** [os.IsPathSeparator] on Unix: the byte ['/']. *)
Definition IsPathSeparator (c : ascii) : bool := Ascii.eqb c "/".

(** The loop of [filepath.Ext]:
    [for i := len(path) - 1; i >= 0 && !os.IsPathSeparator(path[i]); i--]
    with body [if path[i] == '.' { return path[i:] }], and [return ""] after
    it.  The argument [n] is [i + 1]. *)
Fixpoint Ext_loop (path : string) (n : nat) : string :=
  match n with
  | 0 => EmptyString
  | S i =>
      match String.get i path with
      | None => EmptyString
      | Some c =>
          if IsPathSeparator c then EmptyString
          else if Ascii.eqb c "." then
                 String.substring i (String.length path - i) path
               else Ext_loop path i
      end
  end.

Definition Ext (path : string) : string :=
  Ext_loop path (String.length path).

Section Resolvers.

(** [fixtures.MntPrefix], a constant of another package. *)
Variable MntPrefix : string.

(** [GetApkoConfigOrPreset]: the prefix is defaulted and then not used
    again; the file name is checked and returned. *)
Definition GetApkoConfigOrPreset (mntPrefix cfgFile : string)
  : string * option error :=
  let mntPrefix :=
    if String.eqb mntPrefix EmptyString then MntPrefix else mntPrefix in
  if String.eqb cfgFile EmptyString then
    (EmptyString, Some (Errorf "config file is required"))
  else
    let ext := Ext cfgFile in
    if String.eqb ext EmptyString then
      (EmptyString, Some (Errorf "config file must have an extension"))
    else if negb (String.eqb ext ".yaml") && negb (String.eqb ext ".yml") then
      (EmptyString,
       Some (Errorf "config file must have a .yaml or .yml extension"))
    else (cfgFile, None).

End Resolvers.

(** ** Vocabulary of the statements *)

(** The three required fields are set. *)
Definition required_set (b : ApkoBuilder) : Prop :=
  configFile b <> EmptyString /\ outputImage b <> EmptyString /\
  outputTarball b <> EmptyString.

(** The two base tokens. *)
Definition base_tokens : list string := ["apko"; "build"].

(** The flag tokens in their declared order: cache directory, one pair per
    keyring path, architecture, build context, SBOM toggle, VCS toggle. *)
Definition cache_flag (b : ApkoBuilder) : list string :=
  if String.eqb (cacheDir b) EmptyString then []
  else ["--cache-dir"; cacheDir b].

Definition keyring_flags (b : ApkoBuilder) : list string :=
  flat_map (fun k => ["--keyring-append"; k]) (keyringPaths b).

Definition arch_flag (b : ApkoBuilder) : list string :=
  if String.eqb (buildArch b) EmptyString then [] else ["--arch"; buildArch b].

Definition context_flag (b : ApkoBuilder) : list string :=
  if String.eqb (buildContext b) EmptyString then []
  else ["--build-repository-append"; buildContext b].

Definition sbom_flag (b : ApkoBuilder) : list string :=
  if sbom b then [] else ["--sbom=false"].

Definition vcs_flag (b : ApkoBuilder) : list string :=
  if vcs b then [] else ["--vcs=false"].

Definition flag_tokens (b : ApkoBuilder) : list string :=
  cache_flag b ++ keyring_flags b ++ arch_flag b ++ context_flag b ++
  sbom_flag b ++ vcs_flag b.

(** The tag the image reference carries: the builder's, or the default. *)
Definition effective_tag (b : ApkoBuilder) : string :=
  if String.eqb (tag b) EmptyString then "latest" else tag b.

(** The three positional tokens: config file, image reference, tarball. *)
Definition positional_tokens (b : ApkoBuilder) : list string :=
  [configFile b; outputImage b +:+ ":" +:+ effective_tag b; outputTarball b].

(** The strings of the builder that reach the command as the caller gave
    them. *)
Definition caller_tokens (b : ApkoBuilder) : list string :=
  cacheDir b :: keyringPaths b ++
  [buildArch b; buildContext b; configFile b; outputTarball b] ++
  extraArgs b.

(** Whether a string holds the byte [':'], as every image reference does. *)
Fixpoint has_colon (s : string) : bool :=
  match s with
  | EmptyString => false
  | String c r => Ascii.eqb c ":" || has_colon r
  end.

(** How often a token occurs in a command. *)
Definition occurrences (t : string) (cmd : list string) : nat :=
  count_occ String.string_dec cmd t.

(** Two builders agree on the fields [BuildCommand] reads. *)
Definition same_command_fields (b1 b2 : ApkoBuilder) : Prop :=
  configFile b1 = configFile b2 /\ outputImage b1 = outputImage b2 /\
  tag b1 = tag b2 /\ outputTarball b1 = outputTarball b2 /\
  cacheDir b1 = cacheDir b2 /\ keyringPaths b1 = keyringPaths b2 /\
  buildArch b1 = buildArch b2 /\ buildContext b1 = buildContext b2 /\
  sbom b1 = sbom b2 /\ vcs b1 = vcs b2 /\ extraArgs b1 = extraArgs b2.

(** The builder of the worked scenario: the three required fields and the
    cache directory, nothing else. *)
Definition scenario_builder : ApkoBuilder :=
  WithCacheDir "/cache"
    (WithOutputTarball "out.tar"
       (WithOutputImage "myimage" (WithConfigFile "app.yaml" NewApkoBuilder))).

(** The smallest builder [BuildCommand] accepts: the required fields only. *)
Definition minimal_builder : ApkoBuilder :=
  WithOutputTarball "out.tar"
    (WithOutputImage "myimage" (WithConfigFile "app.yaml" NewApkoBuilder)).

(** A builder with a flag of every kind but the build context, and the
    command it gets. *)
Definition ordered_builder : ApkoBuilder :=
  WithExtraArg "--log-level=debug"
    (WithKeyRingWolfi
       (WithKeyring "/keys/a.pub"
          (WithBuildArch ArchAarch64 (WithSBOM true scenario_builder)))).

Definition ordered_command : list string :=
  ["apko"; "build"; "--cache-dir"; "/cache";
   "--keyring-append"; "/keys/a.pub";
   "--keyring-append"; "/etc/apk/keys/wolfi-signing.rsa.pub";
   "--arch"; "aarch64"; "--vcs=false";
   "app.yaml"; "myimage:latest"; "out.tar"; "--log-level=debug"].

(** ** Chains of setter calls *)

(** One call of a setter, with its argument: the builder is used by chaining
    such calls, [NewApkoBuilder().WithConfigFile(c).WithTag(t)...]. *)
Inductive setter_call : Type :=
| CallWithBuildArch (arch : Architecture)
| CallWithConfigFile (cfg : string)
| CallWithOutputImage (img : string)
| CallWithOutputTarball (tar : string)
| CallWithKeyring (keyringPath : string)
| CallWithWolfiKeyring
| CallWithAlpineKeyring
| CallWithArchitecture (arch : string)
| CallWithCacheDir (dir : string)
| CallWithExtraArg (arg : string)
| CallWithBuildContext (dir : string)
| CallWithDebug
| CallWithKeyringAppendPlaintext (keyring : string)
| CallWithNoNetwork
| CallWithRepositoryAppend (repo : string)
| CallWithTimestamp (ts : string)
| CallWithTag (t : string)
| CallWithAnnotations (ann : gmap string string)
| CallWithBuildDate (date : string)
| CallWithLockfile (path : string)
| CallWithOffline
| CallWithPackageAppend (packages : list string)
| CallWithSBOM (enable : bool)
| CallWithSBOMFormats (formats : list string)
| CallWithSBOMPath (path : string)
| CallWithVCS (enable : bool)
| CallWithLogLevel (level : string)
| CallWithLogPolicy (policies : list string)
| CallWithWorkdir (dir : string)
| CallWithKeyRingWolfi
| CallWithKeyRingAlpine.

(** The call made on a builder: each constructor runs its setter. *)
Definition apply_call (c : setter_call) (b : ApkoBuilder) : ApkoBuilder :=
  match c with
  | CallWithBuildArch arch => WithBuildArch arch b
  | CallWithConfigFile cfg => WithConfigFile cfg b
  | CallWithOutputImage img => WithOutputImage img b
  | CallWithOutputTarball tar => WithOutputTarball tar b
  | CallWithKeyring keyringPath => WithKeyring keyringPath b
  | CallWithWolfiKeyring => WithWolfiKeyring b
  | CallWithAlpineKeyring => WithAlpineKeyring b
  | CallWithArchitecture arch => WithArchitecture arch b
  | CallWithCacheDir dir => WithCacheDir dir b
  | CallWithExtraArg arg => WithExtraArg arg b
  | CallWithBuildContext dir => WithBuildContext dir b
  | CallWithDebug => WithDebug b
  | CallWithKeyringAppendPlaintext keyring => WithKeyringAppendPlaintext keyring b
  | CallWithNoNetwork => WithNoNetwork b
  | CallWithRepositoryAppend repo => WithRepositoryAppend repo b
  | CallWithTimestamp ts => WithTimestamp ts b
  | CallWithTag t => WithTag t b
  | CallWithAnnotations ann => WithAnnotations ann b
  | CallWithBuildDate date => WithBuildDate date b
  | CallWithLockfile path => WithLockfile path b
  | CallWithOffline => WithOffline b
  | CallWithPackageAppend packages => WithPackageAppend packages b
  | CallWithSBOM enable => WithSBOM enable b
  | CallWithSBOMFormats formats => WithSBOMFormats formats b
  | CallWithSBOMPath path => WithSBOMPath path b
  | CallWithVCS enable => WithVCS enable b
  | CallWithLogLevel level => WithLogLevel level b
  | CallWithLogPolicy policies => WithLogPolicy policies b
  | CallWithWorkdir dir => WithWorkdir dir b
  | CallWithKeyRingWolfi => WithKeyRingWolfi b
  | CallWithKeyRingAlpine => WithKeyRingAlpine b
  end.

(** A chain of calls, the first call of the list made first. *)
Definition chain (calls : list setter_call) (b : ApkoBuilder) : ApkoBuilder :=
  fold_left (fun b c => apply_call c b) calls b.

(** The fields of [ApkoBuilder], by name. *)
Inductive field : Type :=
| F_configFile | F_outputImage | F_tag | F_outputTarball
| F_keyringPaths | F_cacheDir | F_extraArgs | F_wolfiKeyring
| F_alpineKeyring | F_buildArch | F_buildContext | F_debug
| F_keyringAppendPlaintext | F_noNetwork | F_repositoryAppend
| F_timestamp | F_annotations | F_buildDate | F_lockfile | F_offline
| F_packageAppend | F_sbom | F_sbomFormats | F_sbomPath | F_vcs
| F_logLevel | F_logPolicy | F_workdir.

(** The field a setter writes. *)
Definition target (c : setter_call) : field :=
  match c with
  | CallWithBuildArch _ => F_buildArch
  | CallWithConfigFile _ => F_configFile
  | CallWithOutputImage _ => F_outputImage
  | CallWithOutputTarball _ => F_outputTarball
  | CallWithKeyring _ => F_keyringPaths
  | CallWithWolfiKeyring => F_wolfiKeyring
  | CallWithAlpineKeyring => F_alpineKeyring
  | CallWithArchitecture _ => F_buildArch
  | CallWithCacheDir _ => F_cacheDir
  | CallWithExtraArg _ => F_extraArgs
  | CallWithBuildContext _ => F_buildContext
  | CallWithDebug => F_debug
  | CallWithKeyringAppendPlaintext _ => F_keyringAppendPlaintext
  | CallWithNoNetwork => F_noNetwork
  | CallWithRepositoryAppend _ => F_repositoryAppend
  | CallWithTimestamp _ => F_timestamp
  | CallWithTag _ => F_tag
  | CallWithAnnotations _ => F_annotations
  | CallWithBuildDate _ => F_buildDate
  | CallWithLockfile _ => F_lockfile
  | CallWithOffline => F_offline
  | CallWithPackageAppend _ => F_packageAppend
  | CallWithSBOM _ => F_sbom
  | CallWithSBOMFormats _ => F_sbomFormats
  | CallWithSBOMPath _ => F_sbomPath
  | CallWithVCS _ => F_vcs
  | CallWithLogLevel _ => F_logLevel
  | CallWithLogPolicy _ => F_logPolicy
  | CallWithWorkdir _ => F_workdir
  | CallWithKeyRingWolfi => F_keyringPaths
  | CallWithKeyRingAlpine => F_keyringPaths
  end.

(** Two builders hold the same value in the named field. *)
Definition same_field (f : field) (b1 b2 : ApkoBuilder) : Prop :=
  match f with
  | F_configFile => configFile b1 = configFile b2
  | F_outputImage => outputImage b1 = outputImage b2
  | F_tag => tag b1 = tag b2
  | F_outputTarball => outputTarball b1 = outputTarball b2
  | F_keyringPaths => keyringPaths b1 = keyringPaths b2
  | F_cacheDir => cacheDir b1 = cacheDir b2
  | F_extraArgs => extraArgs b1 = extraArgs b2
  | F_wolfiKeyring => wolfiKeyring b1 = wolfiKeyring b2
  | F_alpineKeyring => alpineKeyring b1 = alpineKeyring b2
  | F_buildArch => buildArch b1 = buildArch b2
  | F_buildContext => buildContext b1 = buildContext b2
  | F_debug => debug b1 = debug b2
  | F_keyringAppendPlaintext => keyringAppendPlaintext b1 = keyringAppendPlaintext b2
  | F_noNetwork => noNetwork b1 = noNetwork b2
  | F_repositoryAppend => repositoryAppend b1 = repositoryAppend b2
  | F_timestamp => timestamp b1 = timestamp b2
  | F_annotations => annotations b1 = annotations b2
  | F_buildDate => buildDate b1 = buildDate b2
  | F_lockfile => lockfile b1 = lockfile b2
  | F_offline => offline b1 = offline b2
  | F_packageAppend => packageAppend b1 = packageAppend b2
  | F_sbom => sbom b1 = sbom b2
  | F_sbomFormats => sbomFormats b1 = sbomFormats b2
  | F_sbomPath => sbomPath b1 = sbomPath b2
  | F_vcs => vcs b1 = vcs b2
  | F_logLevel => logLevel b1 = logLevel b2
  | F_logPolicy => logPolicy b1 = logPolicy b2
  | F_workdir => workdir b1 = workdir b2
  end.

(** Setters that assign their field; the others append to it. *)
Definition assigns (c : setter_call) : bool :=
  match c with
  | CallWithKeyring _ => false
  | CallWithExtraArg _ => false
  | CallWithKeyringAppendPlaintext _ => false
  | CallWithRepositoryAppend _ => false
  | CallWithPackageAppend _ => false
  | CallWithKeyRingWolfi => false
  | CallWithKeyRingAlpine => false
  | _ => true
  end.

(** The keyring paths a chain adds, in the order of its calls: the argument
    of each [WithKeyring], the preset path of each [WithKeyRingWolfi] and
    [WithKeyRingAlpine]. *)
Definition keyring_arguments (calls : list setter_call) : list string :=
  flat_map (fun c => match c with
                     | CallWithKeyring k => [k]
                     | CallWithKeyRingWolfi => [ApkoWolfiSigninRsaKeyPath]
                     | CallWithKeyRingAlpine => [ApkoAlpineSigninRsaKeyPath]
                     | _ => []
                     end) calls.

(** The extra arguments a chain adds, in the order of its calls. *)
Definition extra_arguments (calls : list setter_call) : list string :=
  flat_map (fun c => match c with
                     | CallWithExtraArg a => [a]
                     | _ => []
                     end) calls.

(** ** Vocabulary for file names *)

(** A string without the byte ['.'] and without a path separator. *)
Fixpoint plain (s : string) : bool :=
  match s with
  | EmptyString => true
  | String c r => negb (IsPathSeparator c) && negb (Ascii.eqb c ".") && plain r
  end.

(** The number of tokens of the command of a builder. *)
Definition command_length (b : ApkoBuilder) : nat :=
  2 + (if String.eqb (cacheDir b) EmptyString then 0 else 2) +
  2 * length (keyringPaths b) +
  (if String.eqb (buildArch b) EmptyString then 0 else 2) +
  (if String.eqb (buildContext b) EmptyString then 0 else 2) +
  (if sbom b then 0 else 1) + (if vcs b then 0 else 1) +
  3 + length (extraArgs b).

(** * Properties *)

(** ** Helper lemmas *)

Lemma eqb_empty_false (s : string) :
  s <> EmptyString -> String.eqb s EmptyString = false.
Proof. intros H. now apply String.eqb_neq. Qed.

Lemma eqb_empty_true (s : string) :
  s = EmptyString -> String.eqb s EmptyString = true.
Proof. intros ->. reflexivity. Qed.

(** The keyring loop appends one flag pair per path, in the order of the
    slice. *)
Lemma keyring_loop (flag : string) (ks : list string) :
  forall acc : list string,
    fold_left (fun cmd k => cmd ++ [flag; k]) ks acc
    = acc ++ flat_map (fun k => [flag; k]) ks.
Proof.
  induction ks as [|k ks IH]; intros acc; simpl.
  - now rewrite app_nil_r.
  - rewrite IH. now rewrite <- app_assoc.
Qed.

(** On a builder with its required fields set, [BuildCommand] passes the
    guards, writes the effective tag and returns the command in one piece. *)
Lemma BuildCommand_success (b : ApkoBuilder) :
  required_set b ->
  BuildCommand b
  = (if String.eqb (tag b) EmptyString then WithTag "latest" b else b,
     (Some (base_tokens ++ flag_tokens b ++ positional_tokens b ++ extraArgs b),
      None)).
Proof.
  intros (Hc & Hi & Ht).
  unfold BuildCommand.
  rewrite (eqb_empty_false _ Hc), (eqb_empty_false _ Hi), (eqb_empty_false _ Ht).
  unfold base_tokens, flag_tokens, positional_tokens, cache_flag, keyring_flags,
    arch_flag, context_flag, sbom_flag, vcs_flag, effective_tag, Sprintf_ref.
  rewrite keyring_loop.
  destruct (String.eqb (tag b) EmptyString); cbn [WithTag configFile outputImage
    tag outputTarball keyringPaths cacheDir extraArgs buildArch buildContext
    sbom vcs];
    destruct (String.eqb (cacheDir b) EmptyString);
    destruct (String.eqb (buildArch b) EmptyString);
    destruct (String.eqb (buildContext b) EmptyString);
    destruct (sbom b); destruct (vcs b); cbn [negb];
    repeat rewrite <- app_assoc; repeat rewrite app_nil_r; reflexivity.
Qed.

(** With a required field missing, the builder comes back untouched. *)
Lemma BuildCommand_failure_state (b : ApkoBuilder) :
  ~ required_set b -> fst (BuildCommand b) = b.
Proof.
  intros H. unfold BuildCommand.
  destruct (String.eqb (configFile b) EmptyString) eqn:Ec; [reflexivity|].
  destruct (String.eqb (outputImage b) EmptyString) eqn:Ei; [reflexivity|].
  destruct (String.eqb (outputTarball b) EmptyString) eqn:Et; [reflexivity|].
  exfalso. apply H. repeat split; now apply String.eqb_neq.
Qed.

(** ** The worked scenario *)

(** C1: with configFile "app.yaml", outputImage "myimage", outputTarball
    "out.tar", cacheDir "/cache", no tag and nothing else set, [BuildCommand]
    returns exactly apko build --cache-dir /cache --sbom=false --vcs=false
    app.yaml myimage:latest out.tar, and a nil error. *)
Theorem BuildCommand_scenario :
  snd (BuildCommand scenario_builder)
  = (Some ["apko"; "build"; "--cache-dir"; "/cache"; "--sbom=false";
           "--vcs=false"; "app.yaml"; "myimage:latest"; "out.tar"],
     None).
Proof. reflexivity. Qed.

(** ** Required fields *)

(** C2: when one of the three required fields is missing, [BuildCommand]
    returns a nil sequence and the error naming the first missing field, in
    the order config file, output image, output tarball; and on no builder
    does an error come with a sequence. *)
Theorem BuildCommand_missing_required (b : ApkoBuilder) :
  configFile b = EmptyString \/ outputImage b = EmptyString \/
  outputTarball b = EmptyString ->
  (exists msg, snd (BuildCommand b) = (None, Some (Errorf msg))) /\
  (configFile b = EmptyString ->
   snd (BuildCommand b) = (None, Some (Errorf "config file is required"))) /\
  (configFile b <> EmptyString -> outputImage b = EmptyString ->
   snd (BuildCommand b)
   = (None, Some (Errorf "output image name is required"))) /\
  (configFile b <> EmptyString -> outputImage b <> EmptyString ->
   outputTarball b = EmptyString ->
   snd (BuildCommand b)
   = (None, Some (Errorf "output tarball path is required"))) /\
  (forall (b' : ApkoBuilder) (e : error),
      snd (snd (BuildCommand b')) = Some e ->
      fst (snd (BuildCommand b')) = None).
Proof.
  intros Hmiss. unfold BuildCommand. repeat split.
  - destruct (String.eqb (configFile b) EmptyString) eqn:Ec; [eauto|].
    destruct (String.eqb (outputImage b) EmptyString) eqn:Ei; [eauto|].
    destruct (String.eqb (outputTarball b) EmptyString) eqn:Et; [eauto|].
    apply String.eqb_neq in Ec, Ei, Et. tauto.
  - intros Hc. now rewrite (eqb_empty_true _ Hc).
  - intros Hc Hi.
    now rewrite (eqb_empty_false _ Hc), (eqb_empty_true _ Hi).
  - intros Hc Hi Ht.
    now rewrite (eqb_empty_false _ Hc), (eqb_empty_false _ Hi),
      (eqb_empty_true _ Ht).
  - intros b' e.
    destruct (String.eqb (configFile b') EmptyString); [reflexivity|].
    destruct (String.eqb (outputImage b') EmptyString); [reflexivity|].
    destruct (String.eqb (outputTarball b') EmptyString); [reflexivity|].
    simpl. discriminate.
Qed.

Lemma BuildCommand_missing_required_witness :
  (outputImage (WithConfigFile "app.yaml" NewApkoBuilder) = EmptyString) /\
  snd (BuildCommand (WithConfigFile "app.yaml" NewApkoBuilder))
  = (None, Some (Errorf "output image name is required")).
Proof.
  split; [reflexivity|].
  apply (BuildCommand_missing_required (WithConfigFile "app.yaml" NewApkoBuilder)).
  - right; left; reflexivity.
  - discriminate.
  - reflexivity.
Defined.

(** ** Calling twice *)

(** C5: on a builder with the three required fields set, a second call of
    [BuildCommand] right after the first returns the same sequence, both
    errors are nil, and the second call leaves the builder as the first
    left it: the tag written by the first call is the one the second
    reads. *)
Theorem BuildCommand_twice (b : ApkoBuilder) :
  required_set b ->
  let first := BuildCommand b in
  let second := BuildCommand (fst first) in
  (exists cmd, snd first = (Some cmd, None) /\ snd second = (Some cmd, None)) /\
  fst second = fst first /\
  tag (fst first) = effective_tag b.
Proof.
  intros Hreq first second.
  assert (Hreq' : required_set (fst first)).
  { subst first. rewrite (BuildCommand_success b Hreq). simpl.
    destruct (String.eqb (tag b) EmptyString); exact Hreq. }
  assert (Htag : tag (fst first) = effective_tag b).
  { subst first. rewrite (BuildCommand_success b Hreq). simpl.
    unfold effective_tag.
    destruct (String.eqb (tag b) EmptyString); reflexivity. }
  assert (Hne : String.eqb (tag (fst first)) EmptyString = false).
  { rewrite Htag. unfold effective_tag.
    destruct (String.eqb (tag b) EmptyString) eqn:E; [reflexivity | exact E]. }
  subst second. rewrite (BuildCommand_success (fst first) Hreq').
  rewrite Hne. simpl. repeat split; [|exact Htag].
  subst first. rewrite (BuildCommand_success b Hreq) in *. simpl in *.
  eexists; split; [reflexivity|].
  unfold flag_tokens, positional_tokens, cache_flag, keyring_flags, arch_flag,
    context_flag, sbom_flag, vcs_flag, effective_tag.
  destruct (String.eqb (tag b) EmptyString) eqn:E; simpl.
  - reflexivity.
  - rewrite E. reflexivity.
Qed.

Lemma BuildCommand_twice_witness :
  required_set scenario_builder /\
  snd (BuildCommand (fst (BuildCommand scenario_builder)))
  = snd (BuildCommand scenario_builder).
Proof.
  assert (H : required_set scenario_builder) by (repeat split; discriminate).
  split; [exact H|].
  destruct (BuildCommand_twice scenario_builder H) as [[cmd [H1 H2]] _].
  rewrite H1, H2. reflexivity.
Defined.

(** ** What a call changes *)

(** C9: a call of [BuildCommand] leaves every field of the builder other
    than the tag as it was, whether the call succeeds or fails; the tag
    becomes "latest" when it was empty and the call succeeds, and stays as
    it was otherwise. *)
Theorem BuildCommand_frame (b : ApkoBuilder) :
  let b' := fst (BuildCommand b) in
  (configFile b' = configFile b /\ outputImage b' = outputImage b /\
   outputTarball b' = outputTarball b /\ keyringPaths b' = keyringPaths b /\
   cacheDir b' = cacheDir b /\ extraArgs b' = extraArgs b /\
   wolfiKeyring b' = wolfiKeyring b /\ alpineKeyring b' = alpineKeyring b /\
   buildArch b' = buildArch b /\ buildContext b' = buildContext b /\
   debug b' = debug b /\
   keyringAppendPlaintext b' = keyringAppendPlaintext b /\
   noNetwork b' = noNetwork b /\ repositoryAppend b' = repositoryAppend b /\
   timestamp b' = timestamp b /\ annotations b' = annotations b /\
   buildDate b' = buildDate b /\ lockfile b' = lockfile b /\
   offline b' = offline b /\ packageAppend b' = packageAppend b /\
   sbom b' = sbom b /\ sbomFormats b' = sbomFormats b /\
   sbomPath b' = sbomPath b /\ vcs b' = vcs b /\ logLevel b' = logLevel b /\
   logPolicy b' = logPolicy b /\ workdir b' = workdir b) /\
  (snd (snd (BuildCommand b)) = None -> tag b' = effective_tag b) /\
  (snd (snd (BuildCommand b)) <> None -> b' = b).
Proof.
  unfold BuildCommand, effective_tag.
  destruct (String.eqb (configFile b) EmptyString);
    [simpl; repeat split; congruence|].
  destruct (String.eqb (outputImage b) EmptyString);
    [simpl; repeat split; congruence|].
  destruct (String.eqb (outputTarball b) EmptyString);
    [simpl; repeat split; congruence|].
  destruct (String.eqb (tag b) EmptyString); simpl; repeat split; congruence.
Qed.

Lemma BuildCommand_frame_witness :
  snd (snd (BuildCommand scenario_builder)) = None /\
  tag (fst (BuildCommand scenario_builder)) = effective_tag scenario_builder.
Proof.
  split; [reflexivity|].
  apply (BuildCommand_frame scenario_builder). reflexivity.
Defined.

(** ** The fields the command depends on *)

(** C10: two builders that agree on configFile, outputImage, tag,
    outputTarball, cacheDir, keyringPaths, buildArch, buildContext, sbom, vcs
    and extraArgs get the same sequence and the same error from
    [BuildCommand], whatever their other fields hold; in particular
    [WithWolfiKeyring] and [WithAlpineKeyring] do not change what
    [BuildCommand] returns. *)
Theorem BuildCommand_depends_on (b1 b2 : ApkoBuilder) :
  same_command_fields b1 b2 ->
  snd (BuildCommand b1) = snd (BuildCommand b2) /\
  snd (BuildCommand (WithWolfiKeyring b1)) = snd (BuildCommand b1) /\
  snd (BuildCommand (WithAlpineKeyring b1)) = snd (BuildCommand b1).
Proof.
  assert (Hdep : forall x y : ApkoBuilder,
             same_command_fields x y ->
             snd (BuildCommand x) = snd (BuildCommand y)).
  { intros x y (Hc & Hi & Htg & Ht & Hd & Hk & Ha & Hx & Hs & Hv & He).
    unfold BuildCommand. rewrite Hc, Hi, Ht, Htg.
    destruct (String.eqb (configFile y) EmptyString); [reflexivity|].
    destruct (String.eqb (outputImage y) EmptyString); [reflexivity|].
    destruct (String.eqb (outputTarball y) EmptyString); [reflexivity|].
    destruct (String.eqb (tag y) EmptyString); simpl;
      rewrite ?Hc, ?Hi, ?Htg, ?Ht, ?Hd, ?Hk, ?Ha, ?Hx, ?Hs, ?Hv, ?He;
      reflexivity. }
  intros H. split; [exact (Hdep b1 b2 H)|].
  split; apply Hdep; repeat split.
Qed.

Lemma BuildCommand_depends_on_witness :
  same_command_fields scenario_builder
    (WithLogPolicy ["ignore"]
       (WithSBOMFormats ["spdx"]
          (WithWorkdir "/work" (WithDebug (WithOffline scenario_builder))))) /\
  snd (BuildCommand scenario_builder)
  = snd (BuildCommand
           (WithLogPolicy ["ignore"]
              (WithSBOMFormats ["spdx"]
                 (WithWorkdir "/work"
                    (WithDebug (WithOffline scenario_builder)))))).
Proof.
  assert (H : same_command_fields scenario_builder
                (WithLogPolicy ["ignore"]
                   (WithSBOMFormats ["spdx"]
                      (WithWorkdir "/work"
                         (WithDebug (WithOffline scenario_builder))))))
    by (repeat split).
  split; [exact H|].
  exact (proj1 (BuildCommand_depends_on _ _ H)).
Defined.

(** ** Setters of list-valued fields *)

(** C3, as the code has it: the setters for keyring paths, extra arguments,
    appended packages and appended repositories (and plaintext keyrings)
    append to the list they find, so that a call with [a] and then one with
    [c] leave the old list followed by [a] and [c]; [WithPackageAppend] does
    so for whole argument lists.  [WithSBOMFormats] and [WithLogPolicy]
    assign: after the two calls the list holds the values of the second call
    only. *)
Theorem list_setters (b : ApkoBuilder) (a c : string) (ps qs : list string) :
  keyringPaths (WithKeyring c (WithKeyring a b)) = keyringPaths b ++ [a; c] /\
  extraArgs (WithExtraArg c (WithExtraArg a b)) = extraArgs b ++ [a; c] /\
  packageAppend (WithPackageAppend [c] (WithPackageAppend [a] b))
  = packageAppend b ++ [a; c] /\
  packageAppend (WithPackageAppend qs (WithPackageAppend ps b))
  = packageAppend b ++ ps ++ qs /\
  repositoryAppend (WithRepositoryAppend c (WithRepositoryAppend a b))
  = repositoryAppend b ++ [a; c] /\
  keyringAppendPlaintext
    (WithKeyringAppendPlaintext c (WithKeyringAppendPlaintext a b))
  = keyringAppendPlaintext b ++ [a; c] /\
  sbomFormats (WithSBOMFormats qs (WithSBOMFormats ps b)) = qs /\
  logPolicy (WithLogPolicy qs (WithLogPolicy ps b)) = qs.
Proof.
  simpl. repeat split; now rewrite <- app_assoc.
Qed.

(** C3 as stated fails for SBOM formats and log policies: on a fresh
    builder, setting "spdx" and then "cyclonedx" leaves "cyclonedx" alone,
    not "spdx" followed by "cyclonedx". *)
Lemma list_setters_replace :
  sbomFormats (WithSBOMFormats ["cyclonedx"]
                 (WithSBOMFormats ["spdx"] NewApkoBuilder))
  = ["cyclonedx"] /\
  sbomFormats (WithSBOMFormats ["cyclonedx"]
                 (WithSBOMFormats ["spdx"] NewApkoBuilder))
  <> sbomFormats NewApkoBuilder ++ ["spdx"; "cyclonedx"] /\
  logPolicy (WithLogPolicy ["b"] (WithLogPolicy ["a"] NewApkoBuilder))
  <> logPolicy NewApkoBuilder ++ ["a"; "b"].
Proof.
  repeat split; simpl; discriminate.
Qed.

(** ** Preset lookup *)

(** C7: the presets "wolfi" and "alpine" resolve to their fixed URL and path
    with a nil error; every other name, compared byte for byte, gets the
    error "unsupported preset: " followed by the name. *)
Theorem GetKeyringInfoForPreset_spec :
  GetKeyringInfoForPreset "wolfi"
  = ({| KeyURL := "https://packages.wolfi.dev/os/wolfi-signing.rsa.pub";
        KeyPath := ApkoWolfiSigninRsaKeyPath |}, None) /\
  GetKeyringInfoForPreset "alpine"
  = ({| KeyURL := "https://alpinelinux.org/keys/alpine-devel@lists.alpinelinux.org-4a6a0840.rsa.pub";
        KeyPath := ApkoAlpineSigninRsaKeyPath |}, None) /\
  (forall preset : string,
      preset <> "wolfi" -> preset <> "alpine" ->
      GetKeyringInfoForPreset preset
      = ({| KeyURL := EmptyString; KeyPath := EmptyString |},
         Some (Errorf ("unsupported preset: " +:+ preset)))) /\
  snd (GetKeyringInfoForPreset "Wolfi")
  = Some (Errorf "unsupported preset: Wolfi") /\
  snd (GetKeyringInfoForPreset "wolfi ")
  = Some (Errorf "unsupported preset: wolfi ").
Proof.
  repeat split.
  intros preset Hw Ha. unfold GetKeyringInfoForPreset.
  apply String.eqb_neq in Hw, Ha. now rewrite Ha, Hw.
Qed.

Lemma GetKeyringInfoForPreset_spec_witness :
  GetKeyringInfoForPreset "ALPINE"
  = ({| KeyURL := EmptyString; KeyPath := EmptyString |},
     Some (Errorf ("unsupported preset: " +:+ "ALPINE"))).
Proof.
  apply (proj1 (proj2 (proj2 GetKeyringInfoForPreset_spec)) "ALPINE");
    discriminate.
Defined.

(** ** Configuration file check *)

(** C8: whatever the prefix, [GetApkoConfigOrPreset] answers "config file is
    required" for an empty file name, "config file must have an extension"
    when [Ext] finds none, "config file must have a .yaml or .yml extension"
    for any other extension, and otherwise the file name as given, with no
    prefix in it; "cfg", "cfg.json" and "cfg.yaml" with an empty prefix are
    instances of the last three. *)
Theorem GetApkoConfigOrPreset_spec (MntPrefix prefix file : string) :
  (file = EmptyString ->
   GetApkoConfigOrPreset MntPrefix prefix file
   = (EmptyString, Some (Errorf "config file is required"))) /\
  (file <> EmptyString -> Ext file = EmptyString ->
   GetApkoConfigOrPreset MntPrefix prefix file
   = (EmptyString, Some (Errorf "config file must have an extension"))) /\
  (Ext file <> EmptyString -> Ext file <> ".yaml" -> Ext file <> ".yml" ->
   GetApkoConfigOrPreset MntPrefix prefix file
   = (EmptyString,
      Some (Errorf "config file must have a .yaml or .yml extension"))) /\
  (Ext file = ".yaml" \/ Ext file = ".yml" ->
   GetApkoConfigOrPreset MntPrefix prefix file = (file, None)) /\
  GetApkoConfigOrPreset MntPrefix EmptyString "cfg"
  = (EmptyString, Some (Errorf "config file must have an extension")) /\
  GetApkoConfigOrPreset MntPrefix EmptyString "cfg.json"
  = (EmptyString,
     Some (Errorf "config file must have a .yaml or .yml extension")) /\
  GetApkoConfigOrPreset MntPrefix EmptyString "cfg.yaml" = ("cfg.yaml", None).
Proof.
  assert (Hext : file = EmptyString -> Ext file = EmptyString)
    by (intros ->; reflexivity).
  unfold GetApkoConfigOrPreset. repeat split.
  - intros ->. reflexivity.
  - intros Hf He. rewrite (eqb_empty_false _ Hf), He. reflexivity.
  - intros He Hy Hm.
    destruct (String.eqb file EmptyString) eqn:Ef.
    + apply String.eqb_eq in Ef. now elim He; apply Hext.
    + apply String.eqb_neq in He, Hy, Hm. now rewrite He, Hy, Hm.
  - intros Hym.
    destruct (String.eqb file EmptyString) eqn:Ef.
    + apply String.eqb_eq in Ef. apply Hext in Ef.
      destruct Hym as [H | H]; rewrite H in Ef; discriminate.
    + destruct Hym as [H | H]; rewrite H; reflexivity.
Qed.

Lemma GetApkoConfigOrPreset_spec_witness :
  Ext "deploy/apko.yml" = ".yml" /\
  GetApkoConfigOrPreset "/mnt" "/custom" "deploy/apko.yml"
  = ("deploy/apko.yml", None).
Proof.
  split; [reflexivity|].
  apply (GetApkoConfigOrPreset_spec "/mnt" "/custom" "deploy/apko.yml").
  right; reflexivity.
Defined.

(** ** Order of the tokens *)

Lemma BuildCommand_success_inv (b : ApkoBuilder) (cmd : list string) :
  fst (snd (BuildCommand b)) = Some cmd -> required_set b.
Proof.
  unfold BuildCommand, required_set.
  destruct (String.eqb (configFile b) EmptyString) eqn:Ec; [discriminate|].
  destruct (String.eqb (outputImage b) EmptyString) eqn:Ei; [discriminate|].
  destruct (String.eqb (outputTarball b) EmptyString) eqn:Et; [discriminate|].
  intros _. repeat split; now apply String.eqb_neq.
Qed.

(** A list made of four segments gives each of them back at its place. *)
Lemma four_segments {A : Type} (a f p e : list A) :
  firstn (length a) (a ++ f ++ p ++ e) = a /\
  firstn (length f) (skipn (length a) (a ++ f ++ p ++ e)) = f /\
  firstn (length p) (skipn (length a + length f) (a ++ f ++ p ++ e)) = p /\
  skipn (length a + length f + length p) (a ++ f ++ p ++ e) = e.
Proof.
  repeat split.
  - apply take_app_length.
  - rewrite drop_app_length. apply take_app_length.
  - rewrite (app_assoc a f), (drop_app_length' (a ++ f))
      by (rewrite length_app; reflexivity).
    apply take_app_length.
  - rewrite (app_assoc a f), (app_assoc (a ++ f) p).
    apply drop_app_length'. now rewrite !length_app.
Qed.

(** C6: a sequence returned by [BuildCommand] is the two base tokens, then
    the flag tokens in their declared order (cache directory, one pair per
    keyring path in the order of insertion, architecture, build context,
    SBOM and VCS toggles), then the three positional tokens (config file,
    image reference, output tarball), then the extra arguments as given; so
    the tokens at the first two places are the base tokens, the next
    [length (flag_tokens b)] places hold the flags, the next three the
    positionals, and the extra arguments fill the rest. *)
Theorem BuildCommand_order (b : ApkoBuilder) (cmd : list string) :
  fst (snd (BuildCommand b)) = Some cmd ->
  cmd = base_tokens ++ flag_tokens b ++ positional_tokens b ++ extraArgs b /\
  firstn 2 cmd = ["apko"; "build"] /\
  firstn (length (flag_tokens b)) (skipn 2 cmd) = flag_tokens b /\
  firstn 3 (skipn (2 + length (flag_tokens b)) cmd) = positional_tokens b /\
  skipn (2 + length (flag_tokens b) + 3) cmd = extraArgs b /\
  snd (snd (BuildCommand b)) = None.
Proof.
  intros Hok. pose proof (BuildCommand_success_inv b cmd Hok) as Hreq.
  rewrite (BuildCommand_success b Hreq) in *. simpl in Hok.
  injection Hok as <-. split; [reflexivity|].
  pose proof (four_segments base_tokens (flag_tokens b) (positional_tokens b)
                (extraArgs b)) as (H1 & H2 & H3 & H4).
  repeat split; assumption.
Qed.

Lemma BuildCommand_order_witness :
  fst (snd (BuildCommand ordered_builder)) = Some ordered_command /\
  ordered_command
  = base_tokens ++ flag_tokens ordered_builder ++
    positional_tokens ordered_builder ++ extraArgs ordered_builder.
Proof.
  assert (H : fst (snd (BuildCommand ordered_builder)) = Some ordered_command)
    by (vm_compute; reflexivity).
  split; [exact H|].
  exact (proj1 (BuildCommand_order ordered_builder ordered_command H)).
Defined.

(** ** SBOM and VCS toggles *)

Lemma occurrences_app (t : string) (l1 l2 : list string) :
  occurrences t (l1 ++ l2) = occurrences t l1 + occurrences t l2.
Proof. apply count_occ_app. Qed.

Lemma occurrences_cons_ne (t x : string) (l : list string) :
  x <> t -> occurrences t (x :: l) = occurrences t l.
Proof. intros H. now apply count_occ_cons_neq. Qed.

Lemma occurrences_cons_eq (t : string) (l : list string) :
  occurrences t (t :: l) = S (occurrences t l).
Proof. now apply count_occ_cons_eq. Qed.

(** A flag taking a value, emitted when the value is not empty, brings the
    occurrences of its value and no other. *)
Lemma occurrences_optional (t flag v : string) :
  flag <> t -> t <> EmptyString ->
  occurrences t (if String.eqb v EmptyString then [] else [flag; v])
  = occurrences t [v].
Proof.
  intros Hf Ht. destruct (String.eqb v EmptyString) eqn:E.
  - apply String.eqb_eq in E. subst v.
    rewrite occurrences_cons_ne by congruence. reflexivity.
  - now rewrite occurrences_cons_ne.
Qed.

Lemma occurrences_keyring (t flag : string) (ks : list string) :
  flag <> t ->
  occurrences t (flat_map (fun k => [flag; k]) ks) = occurrences t ks.
Proof.
  intros Hf. induction ks as [|k ks IH]; [reflexivity|].
  cbn [flat_map app]. rewrite occurrences_cons_ne by exact Hf.
  destruct (String.string_dec k t) as [->|Hk].
  - now rewrite !occurrences_cons_eq, IH.
  - now rewrite !occurrences_cons_ne, IH.
Qed.

Lemma has_colon_ref (image tg : string) :
  has_colon (image +:+ ":" +:+ tg) = true.
Proof.
  induction image as [|c image IH]; [reflexivity|].
  change (has_colon (String c (image +:+ ":" +:+ tg)) = true).
  cbn [has_colon]. rewrite IH. apply orb_true_r.
Qed.

(** In a returned command a toggle's token occurs where the toggle put it
    and where a string given by the caller is that very token. *)
Lemma toggle_occurrences (t : string) (b : ApkoBuilder) :
  t = "--sbom=false" \/ t = "--vcs=false" ->
  occurrences t
    (base_tokens ++ flag_tokens b ++ positional_tokens b ++ extraArgs b)
  = occurrences t (sbom_flag b) + occurrences t (vcs_flag b) +
    occurrences t (caller_tokens b).
Proof.
  intros Ht.
  assert (Hcolon : has_colon t = false) by (destruct Ht; subst t; reflexivity).
  assert (Href : outputImage b +:+ ":" +:+ effective_tag b <> t).
  { intros E. rewrite <- E, has_colon_ref in Hcolon. discriminate. }
  assert (Hne : t <> EmptyString) by (destruct Ht; subst t; discriminate).
  assert (Hk : "--keyring-append" <> t) by (destruct Ht; subst t; discriminate).
  assert (Hc : "--cache-dir" <> t) by (destruct Ht; subst t; discriminate).
  assert (Ha : "--arch" <> t) by (destruct Ht; subst t; discriminate).
  assert (Hx : "--build-repository-append" <> t)
    by (destruct Ht; subst t; discriminate).
  assert (Hb : occurrences t base_tokens = 0)
    by (destruct Ht; subst t; reflexivity).
  unfold flag_tokens, positional_tokens, caller_tokens, cache_flag,
    keyring_flags, arch_flag, context_flag.
  change (cacheDir b :: keyringPaths b ++ ?r)
    with ([cacheDir b] ++ keyringPaths b ++ r).
  change [buildArch b; buildContext b; configFile b; outputTarball b]
    with ([buildArch b] ++ [buildContext b] ++
          [configFile b; outputTarball b]).
  rewrite !occurrences_app, Hb.
  rewrite (occurrences_optional t _ (cacheDir b) Hc Hne).
  rewrite (occurrences_optional t _ (buildArch b) Ha Hne).
  rewrite (occurrences_optional t _ (buildContext b) Hx Hne).
  rewrite (occurrences_keyring t _ (keyringPaths b) Hk).
  assert (Hpos : occurrences t
                   [configFile b; outputImage b +:+ ":" +:+ effective_tag b;
                    outputTarball b]
                 = occurrences t [configFile b; outputTarball b]).
  { destruct (String.string_dec (configFile b) t) as [E|E].
    - rewrite E, !occurrences_cons_eq. now rewrite occurrences_cons_ne.
    - rewrite !(occurrences_cons_ne t (configFile b)) by exact E.
      now rewrite occurrences_cons_ne. }
  rewrite Hpos. lia.
Qed.

(** C4, as the code has it: the toggles of a fresh builder are false, the
    zero value, and [WithSBOM], [WithVCS] store what they are given.  On a
    builder with its required fields set, [BuildCommand] puts the token
    --sbom=false once when the SBOM toggle is false (never set, or set to
    false) and not at all when it is true, and likewise --vcs=false for the
    VCS toggle; any further occurrence is a string the caller supplied
    (cache directory, keyring path, architecture, build context, config
    file, tarball, extra argument) that is this very token, so that without
    such a string the token occurs exactly once or not at all. *)
Theorem toggle_flags (b : ApkoBuilder) :
  required_set b ->
  sbom NewApkoBuilder = false /\ vcs NewApkoBuilder = false /\
  (forall (enable : bool) (b0 : ApkoBuilder),
      sbom (WithSBOM enable b0) = enable /\ vcs (WithVCS enable b0) = enable) /\
  exists cmd : list string,
    snd (BuildCommand b) = (Some cmd, None) /\
    occurrences "--sbom=false" cmd
    = (if sbom b then 0 else 1) + occurrences "--sbom=false" (caller_tokens b) /\
    occurrences "--vcs=false" cmd
    = (if vcs b then 0 else 1) + occurrences "--vcs=false" (caller_tokens b) /\
    (~ In "--sbom=false" (caller_tokens b) ->
     occurrences "--sbom=false" cmd = if sbom b then 0 else 1) /\
    (~ In "--vcs=false" (caller_tokens b) ->
     occurrences "--vcs=false" cmd = if vcs b then 0 else 1).
Proof.
  intros Hreq. do 3 (split; [now repeat split|]).
  rewrite (BuildCommand_success b Hreq). cbn [snd].
  eexists; split; [reflexivity|].
  assert (Hs : occurrences "--sbom=false"
                 (base_tokens ++ flag_tokens b ++ positional_tokens b ++
                  extraArgs b)
               = (if sbom b then 0 else 1) +
                 occurrences "--sbom=false" (caller_tokens b)).
  { rewrite toggle_occurrences by (left; reflexivity).
    unfold sbom_flag, vcs_flag. destruct (sbom b), (vcs b); reflexivity. }
  assert (Hv : occurrences "--vcs=false"
                 (base_tokens ++ flag_tokens b ++ positional_tokens b ++
                  extraArgs b)
               = (if vcs b then 0 else 1) +
                 occurrences "--vcs=false" (caller_tokens b)).
  { rewrite toggle_occurrences by (right; reflexivity).
    unfold sbom_flag, vcs_flag. destruct (sbom b), (vcs b); reflexivity. }
  repeat split; try assumption.
  - intros Hn. rewrite Hs.
    apply (count_occ_not_In String.string_dec) in Hn.
    fold (occurrences "--sbom=false" (caller_tokens b)) in Hn. lia.
  - intros Hn. rewrite Hv.
    apply (count_occ_not_In String.string_dec) in Hn.
    fold (occurrences "--vcs=false" (caller_tokens b)) in Hn. lia.
Qed.

Lemma toggle_flags_witness :
  required_set (WithSBOM false (WithVCS true minimal_builder)) /\
  exists cmd : list string,
    snd (BuildCommand (WithSBOM false (WithVCS true minimal_builder)))
    = (Some cmd, None) /\
    occurrences "--sbom=false" cmd = 1 /\ occurrences "--vcs=false" cmd = 0.
Proof.
  assert (H : required_set (WithSBOM false (WithVCS true minimal_builder)))
    by (repeat split; discriminate).
  split; [exact H|].
  destruct (toggle_flags _ H) as (_ & _ & _ & cmd & Hc & Hs & Hv & _).
  exists cmd. split; [exact Hc|]. split; [exact Hs | exact Hv].
Defined.

(** C4 as stated fails on a builder whose toggles were never set: they are
    false, not true, and the command of the minimal builder carries both
    tokens. *)
Lemma unset_toggles_emit_flags :
  sbom minimal_builder = false /\ vcs minimal_builder = false /\
  snd (BuildCommand minimal_builder)
  = (Some ["apko"; "build"; "--sbom=false"; "--vcs=false"; "app.yaml";
           "myimage:latest"; "out.tar"], None) /\
  In "--sbom=false"
    ["apko"; "build"; "--sbom=false"; "--vcs=false"; "app.yaml";
     "myimage:latest"; "out.tar"] /\
  In "--vcs=false"
    ["apko"; "build"; "--sbom=false"; "--vcs=false"; "app.yaml";
     "myimage:latest"; "out.tar"].
Proof.
  repeat split; simpl; tauto.
Qed.

(** * Further properties of the builder *)

(** ** When BuildCommand succeeds *)

(** X1: [BuildCommand] returns a sequence with a nil error exactly when the
    three required fields are non-empty; no other field can make it fail. *)
Theorem BuildCommand_succeeds_iff (b : ApkoBuilder) :
  (exists cmd, snd (BuildCommand b) = (Some cmd, None)) <-> required_set b.
Proof.
  split.
  - intros [cmd H]. apply (BuildCommand_success_inv b cmd). now rewrite H.
  - intros H. rewrite (BuildCommand_success b H). eauto.
Qed.

Lemma BuildCommand_succeeds_iff_witness :
  required_set minimal_builder /\
  exists cmd, snd (BuildCommand minimal_builder) = (Some cmd, None).
Proof.
  assert (H : required_set minimal_builder) by (repeat split; discriminate).
  split; [exact H|].
  exact (proj2 (BuildCommand_succeeds_iff minimal_builder) H).
Defined.

(** X2: the command of a valid builder has two base tokens, two tokens for
    each of cache directory, architecture and build context that is set, two
    per keyring path, one per toggle that is false, three positionals and
    the extra arguments; it never has fewer than five tokens. *)
Theorem BuildCommand_length (b : ApkoBuilder) :
  required_set b ->
  exists cmd, snd (BuildCommand b) = (Some cmd, None) /\
              length cmd = command_length b /\ 5 <= length cmd.
Proof.
  intros H. rewrite (BuildCommand_success b H). cbn [snd].
  eexists; split; [reflexivity|].
  assert (Hk : forall ks : list string,
             length (flat_map (fun k => ["--keyring-append"; k]) ks)
             = 2 * length ks).
  { induction ks as [|k ks IH]; [reflexivity|].
    cbn [flat_map app length]. rewrite IH. cbn [length]. lia. }
  assert (Hlen : length (base_tokens ++ flag_tokens b ++ positional_tokens b ++
                         extraArgs b) = command_length b).
  { unfold flag_tokens, command_length, base_tokens, positional_tokens,
      cache_flag, keyring_flags, arch_flag, context_flag, sbom_flag, vcs_flag.
    rewrite !length_app, Hk.
    destruct (String.eqb (cacheDir b) EmptyString);
      destruct (String.eqb (buildArch b) EmptyString);
      destruct (String.eqb (buildContext b) EmptyString);
      destruct (sbom b); destruct (vcs b); cbn [length]; lia. }
  split; [exact Hlen|]. rewrite Hlen. unfold command_length. lia.
Qed.

Lemma BuildCommand_length_witness :
  required_set ordered_builder /\
  exists cmd, snd (BuildCommand ordered_builder) = (Some cmd, None) /\
              length cmd = command_length ordered_builder /\ 5 <= length cmd.
Proof.
  assert (H : required_set ordered_builder) by (repeat split; discriminate).
  split; [exact H|]. exact (BuildCommand_length ordered_builder H).
Defined.

(** ** How setters show in the command *)

Lemma BuildCommand_same_fields (x y : ApkoBuilder) :
  same_command_fields x y -> snd (BuildCommand x) = snd (BuildCommand y).
Proof.
  intros (Hc & Hi & Htg & Ht & Hd & Hk & Ha & Hx & Hs & Hv & He).
  unfold BuildCommand. rewrite Hc, Hi, Ht, Htg.
  destruct (String.eqb (configFile y) EmptyString); [reflexivity|].
  destruct (String.eqb (outputImage y) EmptyString); [reflexivity|].
  destruct (String.eqb (outputTarball y) EmptyString); [reflexivity|].
  destruct (String.eqb (tag y) EmptyString); simpl;
    rewrite ?Hc, ?Hi, ?Htg, ?Ht, ?Hd, ?Hk, ?Ha, ?Hx, ?Hs, ?Hv, ?He;
    reflexivity.
Qed.

(** X3: the preset setters always append: [WithKeyRingWolfi] and
    [WithKeyRingAlpine] are [WithKeyring] at the exported key paths
    [ApkoWolfiSigninRsaKeyPath] and [ApkoAlpineSigninRsaKeyPath], the branch
    that would leave the builder alone is never taken, and a second call
    adds the path a second time. *)
Theorem preset_setters_append (b : ApkoBuilder) :
  WithKeyRingWolfi b = WithKeyring ApkoWolfiSigninRsaKeyPath b /\
  WithKeyRingAlpine b = WithKeyring ApkoAlpineSigninRsaKeyPath b /\
  keyringPaths (WithKeyRingWolfi (WithKeyRingWolfi b))
  = keyringPaths b ++ [ApkoWolfiSigninRsaKeyPath; ApkoWolfiSigninRsaKeyPath] /\
  keyringPaths (WithKeyRingAlpine (WithKeyRingWolfi b))
  = keyringPaths b ++ [ApkoWolfiSigninRsaKeyPath; ApkoAlpineSigninRsaKeyPath].
Proof.
  repeat split; simpl; now rewrite <- app_assoc.
Qed.

(** X4: one more keyring path puts the pair --keyring-append, path into the
    command right after the keyring pairs already there and before the
    architecture, build-context and toggle flags; the rest of the command
    stays as it was. *)
Theorem WithKeyring_command (b : ApkoBuilder) (k : string) :
  required_set b ->
  exists pre post : list string,
    pre = base_tokens ++ cache_flag b ++ keyring_flags b /\
    snd (BuildCommand b) = (Some (pre ++ post), None) /\
    snd (BuildCommand (WithKeyring k b))
    = (Some (pre ++ ["--keyring-append"; k] ++ post), None).
Proof.
  intros H.
  assert (H' : required_set (WithKeyring k b)) by exact H.
  rewrite (BuildCommand_success b H), (BuildCommand_success _ H'). cbn [snd].
  exists (base_tokens ++ cache_flag b ++ keyring_flags b).
  exists (arch_flag b ++ context_flag b ++ sbom_flag b ++ vcs_flag b ++
          positional_tokens b ++ extraArgs b).
  split; [reflexivity|].
  unfold flag_tokens, keyring_flags. cbn [WithKeyring keyringPaths extraArgs].
  rewrite flat_map_app. cbn [flat_map].
  change (cache_flag (WithKeyring k b)) with (cache_flag b).
  change (arch_flag (WithKeyring k b)) with (arch_flag b).
  change (context_flag (WithKeyring k b)) with (context_flag b).
  change (sbom_flag (WithKeyring k b)) with (sbom_flag b).
  change (vcs_flag (WithKeyring k b)) with (vcs_flag b).
  change (positional_tokens (WithKeyring k b)) with (positional_tokens b).
  rewrite app_nil_r.
  split; f_equal; f_equal; now rewrite <- ?app_assoc.
Qed.

Lemma WithKeyring_command_witness :
  required_set scenario_builder /\
  exists pre post : list string,
    pre = base_tokens ++ cache_flag scenario_builder ++
          keyring_flags scenario_builder /\
    snd (BuildCommand scenario_builder) = (Some (pre ++ post), None) /\
    snd (BuildCommand (WithKeyring "/keys/a.pub" scenario_builder))
    = (Some (pre ++ ["--keyring-append"; "/keys/a.pub"] ++ post), None).
Proof.
  assert (H : required_set scenario_builder) by (repeat split; discriminate).
  split; [exact H|].
  exact (WithKeyring_command scenario_builder "/keys/a.pub" H).
Defined.

(** X5: one more extra argument puts one more token at the very end of the
    command and changes nothing before it. *)
Theorem WithExtraArg_command (b : ApkoBuilder) (arg : string)
    (cmd : list string) :
  fst (snd (BuildCommand b)) = Some cmd ->
  snd (BuildCommand (WithExtraArg arg b)) = (Some (cmd ++ [arg]), None).
Proof.
  intros Hok. pose proof (BuildCommand_success_inv b cmd Hok) as H.
  assert (H' : required_set (WithExtraArg arg b)) by exact H.
  rewrite (BuildCommand_success b H) in Hok.
  cbv beta iota delta [fst snd] in Hok. apply (inj Some) in Hok. subst cmd.
  rewrite (BuildCommand_success _ H'). cbv beta iota delta [snd].
  change (flag_tokens (WithExtraArg arg b)) with (flag_tokens b).
  change (positional_tokens (WithExtraArg arg b)) with (positional_tokens b).
  cbn [WithExtraArg extraArgs]. now rewrite <- !app_assoc.
Qed.

Lemma WithExtraArg_command_witness :
  fst (snd (BuildCommand ordered_builder)) = Some ordered_command /\
  snd (BuildCommand (WithExtraArg "--debug" ordered_builder))
  = (Some (ordered_command ++ ["--debug"]), None).
Proof.
  assert (H : fst (snd (BuildCommand ordered_builder)) = Some ordered_command)
    by (vm_compute; reflexivity).
  split; [exact H|].
  exact (WithExtraArg_command ordered_builder "--debug" ordered_command H).
Defined.

(** X6: the setters [WithDebug], [WithNoNetwork], [WithOffline],
    [WithTimestamp], [WithAnnotations], [WithBuildDate], [WithLockfile],
    [WithPackageAppend], [WithSBOMFormats], [WithSBOMPath], [WithLogLevel],
    [WithLogPolicy], [WithWorkdir], [WithKeyringAppendPlaintext] and
    [WithRepositoryAppend] store a value that [BuildCommand] does not read:
    after any of them the command and the error are what they were. *)
Theorem setters_without_flag (b : ApkoBuilder) (s : string)
    (l : list string) (ann : gmap string string) :
  snd (BuildCommand (WithDebug b)) = snd (BuildCommand b) /\
  snd (BuildCommand (WithNoNetwork b)) = snd (BuildCommand b) /\
  snd (BuildCommand (WithOffline b)) = snd (BuildCommand b) /\
  snd (BuildCommand (WithTimestamp s b)) = snd (BuildCommand b) /\
  snd (BuildCommand (WithAnnotations ann b)) = snd (BuildCommand b) /\
  snd (BuildCommand (WithBuildDate s b)) = snd (BuildCommand b) /\
  snd (BuildCommand (WithLockfile s b)) = snd (BuildCommand b) /\
  snd (BuildCommand (WithPackageAppend l b)) = snd (BuildCommand b) /\
  snd (BuildCommand (WithSBOMFormats l b)) = snd (BuildCommand b) /\
  snd (BuildCommand (WithSBOMPath s b)) = snd (BuildCommand b) /\
  snd (BuildCommand (WithLogLevel s b)) = snd (BuildCommand b) /\
  snd (BuildCommand (WithLogPolicy l b)) = snd (BuildCommand b) /\
  snd (BuildCommand (WithWorkdir s b)) = snd (BuildCommand b) /\
  snd (BuildCommand (WithKeyringAppendPlaintext s b)) = snd (BuildCommand b) /\
  snd (BuildCommand (WithRepositoryAppend s b)) = snd (BuildCommand b).
Proof.
  repeat (split; [apply BuildCommand_same_fields; repeat split|]).
  apply BuildCommand_same_fields; repeat split.
Qed.

(** X7: [BuildCommand] checks for emptiness only the values it guards: when
    the keyring paths and the extra arguments of a valid builder are all
    non-empty, no token of the command is the empty string. *)
Theorem BuildCommand_tokens_nonempty (b : ApkoBuilder) :
  required_set b ->
  Forall (fun k => k <> EmptyString) (keyringPaths b) ->
  Forall (fun a => a <> EmptyString) (extraArgs b) ->
  exists cmd, snd (BuildCommand b) = (Some cmd, None) /\
              Forall (fun t => t <> EmptyString) cmd.
Proof.
  intros H Hk He. rewrite (BuildCommand_success b H).
  cbv beta iota delta [snd]. eexists; split; [reflexivity|].
  destruct H as (Hc & Hi & Ht).
  assert (Hopt : forall flag v : string,
             flag <> EmptyString ->
             Forall (fun t => t <> EmptyString)
               (if String.eqb v EmptyString then [] else [flag; v])).
  { intros flag v Hf. destruct (String.eqb v EmptyString) eqn:E.
    - constructor.
    - apply String.eqb_neq in E. repeat constructor; assumption. }
  unfold base_tokens, flag_tokens, positional_tokens, cache_flag,
    keyring_flags, arch_flag, context_flag, sbom_flag, vcs_flag.
  repeat apply Forall_app_2; try (apply Hopt; discriminate); try exact He.
  - repeat constructor; discriminate.
  - induction Hk as [|k ks Hk1 _ IH]; [constructor|].
    cbn [flat_map app]. repeat constructor; [discriminate | exact Hk1 | exact IH].
  - destruct (sbom b); repeat constructor; discriminate.
  - destruct (vcs b); repeat constructor; discriminate.
  - repeat constructor; try assumption.
    intros E. pose proof (has_colon_ref (outputImage b) (effective_tag b)) as Hcol.
    rewrite E in Hcol. discriminate.
Qed.

Lemma BuildCommand_tokens_nonempty_witness :
  required_set ordered_builder /\
  exists cmd, snd (BuildCommand ordered_builder) = (Some cmd, None) /\
              Forall (fun t => t <> EmptyString) cmd.
Proof.
  assert (H : required_set ordered_builder) by (repeat split; discriminate).
  split; [exact H|].
  apply (BuildCommand_tokens_nonempty ordered_builder H).
  - repeat constructor; discriminate.
  - repeat constructor; discriminate.
Defined.

(** ** Chains of setter calls *)

Lemma same_field_trans (f : field) (b1 b2 b3 : ApkoBuilder) :
  same_field f b1 b2 -> same_field f b2 b3 -> same_field f b1 b3.
Proof. destruct f; simpl; congruence. Qed.

Lemma same_field_refl (f : field) (b : ApkoBuilder) : same_field f b b.
Proof. destruct f; reflexivity. Qed.

Lemma apply_call_frame (c : setter_call) (f : field) (b : ApkoBuilder) :
  target c <> f -> same_field f (apply_call c b) b.
Proof.
  intros H. destruct c, f; try reflexivity; exfalso; apply H; reflexivity.
Qed.

Lemma chain_cons (c : setter_call) (calls : list setter_call)
    (b : ApkoBuilder) :
  chain (c :: calls) b = chain calls (apply_call c b).
Proof. reflexivity. Qed.

Lemma chain_app (pre post : list setter_call) (b : ApkoBuilder) :
  chain (pre ++ post) b = chain post (chain pre b).
Proof. unfold chain. apply fold_left_app. Qed.

(** X8: two setter calls that write different fields can be made in either
    order: the builder after them is the same. *)
Theorem setters_commute (c1 c2 : setter_call) (b : ApkoBuilder) :
  target c1 <> target c2 ->
  apply_call c1 (apply_call c2 b) = apply_call c2 (apply_call c1 b).
Proof.
  intros H. destruct c1, c2; try reflexivity; exfalso; apply H; reflexivity.
Qed.

Lemma setters_commute_witness :
  target (CallWithTag "v1") <> target (CallWithKeyring "/keys/a.pub") /\
  WithTag "v1" (WithKeyring "/keys/a.pub" scenario_builder)
  = WithKeyring "/keys/a.pub" (WithTag "v1" scenario_builder).
Proof.
  assert (H : target (CallWithTag "v1") <> target (CallWithKeyring "/keys/a.pub"))
    by discriminate.
  split; [exact H|].
  exact (setters_commute (CallWithTag "v1") (CallWithKeyring "/keys/a.pub")
           scenario_builder H).
Defined.

Lemma chain_keeps_field (f : field) (calls : list setter_call)
    (b : ApkoBuilder) :
  (forall c, In c calls -> target c <> f) ->
  same_field f (chain calls b) b.
Proof.
  revert b. induction calls as [|c calls IH]; intros b H.
  - apply same_field_refl.
  - rewrite chain_cons.
    apply same_field_trans with (b2 := apply_call c b).
    + apply IH. intros c' Hin. apply H. now right.
    + apply apply_call_frame. apply H. now left.
Qed.

(** X9: a chain of setter calls leaves every field that none of its calls
    writes as it was. *)
Theorem chain_frame (f : field) (calls : list setter_call) (b : ApkoBuilder) :
  (forall c, In c calls -> target c <> f) ->
  same_field f (chain calls b) b.
Proof. apply chain_keeps_field. Qed.

Lemma chain_frame_witness :
  (forall c, In c [CallWithTag "v1"; CallWithDebug; CallWithSBOM true] ->
             target c <> F_cacheDir) /\
  cacheDir (chain [CallWithTag "v1"; CallWithDebug; CallWithSBOM true]
              scenario_builder)
  = cacheDir scenario_builder.
Proof.
  assert (H : forall c,
             In c [CallWithTag "v1"; CallWithDebug; CallWithSBOM true] ->
             target c <> F_cacheDir).
  { intros c [<- | [<- | [<- | []]]]; discriminate. }
  split; [exact H|].
  exact (chain_frame F_cacheDir _ scenario_builder H).
Defined.

(** X10: for a field whose setters assign, the last call that writes it
    decides its value: after a chain in which an assigning call [c] is
    followed only by calls on other fields, the field of [c] holds what [c]
    alone would have put there, whatever came before. *)
Theorem last_call_wins (c : setter_call) (pre post : list setter_call)
    (b : ApkoBuilder) :
  assigns c = true ->
  (forall c', In c' post -> target c' <> target c) ->
  same_field (target c) (chain (pre ++ c :: post) b) (apply_call c b).
Proof.
  intros Ha Hpost. rewrite chain_app, chain_cons.
  apply same_field_trans with (b2 := apply_call c (chain pre b)).
  - apply chain_keeps_field. exact Hpost.
  - generalize (chain pre b). intros b'.
    destruct c; try discriminate Ha; reflexivity.
Qed.

Lemma last_call_wins_witness :
  assigns (CallWithTag "v2") = true /\
  tag (chain ([CallWithTag "v1"; CallWithCacheDir "/c"] ++
              CallWithTag "v2" :: [CallWithKeyring "/keys/a.pub"])
         NewApkoBuilder)
  = "v2".
Proof.
  split; [reflexivity|].
  apply (last_call_wins (CallWithTag "v2")
           [CallWithTag "v1"; CallWithCacheDir "/c"]
           [CallWithKeyring "/keys/a.pub"] NewApkoBuilder).
  - reflexivity.
  - intros c' [<- | []]. discriminate.
Defined.

(** X11: whatever else a chain of setter calls does, the keyring paths after
    it are those before it followed by the paths its keyring calls add
    ([WithKeyring], [WithKeyRingWolfi], [WithKeyRingAlpine]) in the order of
    the calls, and the extra arguments are those before it followed by the
    arguments of its [WithExtraArg] calls in order. *)
Theorem chain_accumulates (calls : list setter_call) (b : ApkoBuilder) :
  keyringPaths (chain calls b) = keyringPaths b ++ keyring_arguments calls /\
  extraArgs (chain calls b) = extraArgs b ++ extra_arguments calls.
Proof.
  revert b. induction calls as [|c calls IH]; intros b.
  - cbn. now rewrite !app_nil_r.
  - rewrite chain_cons. destruct (IH (apply_call c b)) as [IHk IHe].
    rewrite IHk, IHe. unfold keyring_arguments, extra_arguments.
    cbn [flat_map]. rewrite !app_assoc.
    split; f_equal; destruct c; cbn; now rewrite ?app_nil_r.
Qed.

(** X12: a builder made from [NewApkoBuilder] by a chain of setter calls
    that has its required fields set gets --sbom=false in its command unless
    the chain calls [WithSBOM], and --vcs=false unless it calls [WithVCS]:
    to keep SBOM generation or VCS detection on, the caller has to say
    so. *)
Theorem chain_unset_toggles (calls : list setter_call) :
  required_set (chain calls NewApkoBuilder) ->
  exists cmd,
    snd (BuildCommand (chain calls NewApkoBuilder)) = (Some cmd, None) /\
    ((forall c, In c calls -> target c <> F_sbom) -> In "--sbom=false" cmd) /\
    ((forall c, In c calls -> target c <> F_vcs) -> In "--vcs=false" cmd).
Proof.
  intros H. rewrite (BuildCommand_success _ H).
  cbv beta iota delta [snd]. eexists; split; [reflexivity|].
  set (b := chain calls NewApkoBuilder).
  split; intros Hno.
  - pose proof (chain_keeps_field F_sbom calls NewApkoBuilder Hno) as Hs.
    change (sbom b = false) in Hs.
    unfold flag_tokens, sbom_flag. rewrite Hs.
    rewrite !in_app_iff. right; left. do 4 right. left. now left.
  - pose proof (chain_keeps_field F_vcs calls NewApkoBuilder Hno) as Hv.
    change (vcs b = false) in Hv.
    unfold flag_tokens, vcs_flag. rewrite Hv.
    rewrite !in_app_iff. right; left. do 5 right. now left.
Qed.

Lemma chain_unset_toggles_witness :
  required_set
    (chain [CallWithConfigFile "app.yaml"; CallWithOutputImage "myimage";
            CallWithOutputTarball "out.tar"; CallWithVCS true]
       NewApkoBuilder) /\
  exists cmd,
    snd (BuildCommand
           (chain [CallWithConfigFile "app.yaml"; CallWithOutputImage "myimage";
                   CallWithOutputTarball "out.tar"; CallWithVCS true]
              NewApkoBuilder))
    = (Some cmd, None) /\
    In "--sbom=false" cmd.
Proof.
  assert (H : required_set
                (chain [CallWithConfigFile "app.yaml";
                        CallWithOutputImage "myimage";
                        CallWithOutputTarball "out.tar"; CallWithVCS true]
                   NewApkoBuilder))
    by (repeat split; discriminate).
  split; [exact H|].
  destruct (chain_unset_toggles _ H) as (cmd & Hc & Hs & _).
  exists cmd. split; [exact Hc|]. apply Hs.
  intros c [<- | [<- | [<- | [<- | []]]]]; discriminate.
Defined.

(** * Further properties of the configuration file check *)

(** ** Strings *)

Lemma str_cons_app (c : ascii) (r s : string) :
  String c r +:+ s = String c (r +:+ s).
Proof. reflexivity. Qed.

Lemma str_app_nil_r (s : string) : s +:+ EmptyString = s.
Proof.
  induction s as [|c s IH]; [reflexivity|]. now rewrite str_cons_app, IH.
Qed.

Lemma str_app_assoc (a b c : string) : (a +:+ b) +:+ c = a +:+ (b +:+ c).
Proof.
  induction a as [|x a IH]; [reflexivity|]. now rewrite !str_cons_app, IH.
Qed.

Lemma str_length_app (a b : string) :
  String.length (a +:+ b) = String.length a + String.length b.
Proof.
  induction a as [|x a IH]; [reflexivity|].
  rewrite str_cons_app. cbn [String.length]. now rewrite IH.
Qed.

Lemma get_after (pre s : string) (j : nat) :
  String.get (String.length pre + j) (pre +:+ s) = String.get j s.
Proof.
  induction pre as [|x pre IH]; [reflexivity|].
  rewrite str_cons_app. cbn [String.length Nat.add String.get]. exact IH.
Qed.

Lemma substring_whole (s : string) :
  String.substring 0 (String.length s) s = s.
Proof.
  induction s as [|c s IH]; [reflexivity|].
  cbn [String.length String.substring]. now rewrite IH.
Qed.

Lemma substring_after (pre s : string) :
  String.substring (String.length pre)
    (String.length (pre +:+ s) - String.length pre) (pre +:+ s)
  = s.
Proof.
  induction pre as [|x pre IH].
  - change (EmptyString +:+ s) with s. cbn [String.length].
    rewrite Nat.sub_0_r. apply substring_whole.
  - rewrite str_cons_app. cbn [String.length String.substring Nat.sub].
    exact IH.
Qed.

Lemma str_snoc (n : nat) (s : string) :
  String.length s = S n ->
  exists (pre : string) (c : ascii),
    s = pre +:+ String c EmptyString /\ String.length pre = n.
Proof.
  revert s. induction n as [|n IH]; intros s Hlen.
  - destruct s as [|c [|d s]]; try discriminate.
    exists EmptyString, c. split; reflexivity.
  - destruct s as [|c s]; [discriminate|].
    cbn [String.length] in Hlen. injection Hlen as Hlen.
    destruct (IH s Hlen) as (pre & d & -> & Hpre).
    exists (String c pre), d. split; [reflexivity|].
    cbn [String.length]. now rewrite Hpre.
Qed.

(** ** The extension of a path *)

(** One round of the loop of [filepath.Ext], at the byte that follows
    [pre]. *)
Lemma Ext_loop_step (pre : string) (c : ascii) (suf : string) :
  Ext_loop (pre +:+ String c suf) (S (String.length pre))
  = if IsPathSeparator c then EmptyString
    else if Ascii.eqb c "." then String c suf
         else Ext_loop (pre +:+ String c suf) (String.length pre).
Proof.
  cbn [Ext_loop].
  pose proof (get_after pre (String c suf) 0) as Hget.
  rewrite Nat.add_0_r in Hget. rewrite Hget. cbn [String.get].
  now rewrite substring_after.
Qed.

(** The loop walks over bytes that are neither a dot nor a separator. *)
Lemma Ext_loop_plain (suf : string) :
  forall pre : string,
    plain suf = true ->
    Ext_loop (pre +:+ suf) (String.length pre + String.length suf)
    = Ext_loop (pre +:+ suf) (String.length pre).
Proof.
  induction suf as [|c r IH]; intros pre Hp.
  - cbn [String.length]. now rewrite Nat.add_0_r.
  - cbn [plain] in Hp. apply andb_prop in Hp as [Hp Hr].
    apply andb_prop in Hp as [Hs Hd].
    apply negb_true_iff in Hs, Hd.
    specialize (IH (pre +:+ String c EmptyString) Hr).
    rewrite str_app_assoc, str_length_app in IH.
    change (String c EmptyString +:+ r) with (String c r) in IH.
    cbn [String.length] in IH.
    replace (String.length pre + 1 + String.length r)
      with (String.length pre + S (String.length r)) in IH by lia.
    cbn [String.length]. rewrite IH.
    replace (String.length pre + 1) with (S (String.length pre)) by lia.
    now rewrite Ext_loop_step, Hs, Hd.
Qed.

(** What the loop finds when it starts right after [pre] and the bytes
    after it are plain: no dot before a separator or the start of the path,
    or the last dot of the last element. *)
Lemma Ext_loop_shape (n : nat) :
  forall pre suf : string,
    String.length pre = n -> plain suf = true ->
    (Ext_loop (pre +:+ suf) n = EmptyString /\
     exists e : string,
       plain e = true /\
       (pre +:+ suf = e \/ exists stem, pre +:+ suf = stem +:+ String "/" e))
    \/
    (exists stem e : string,
        pre +:+ suf = stem +:+ String "." e /\ plain e = true /\
        Ext_loop (pre +:+ suf) n = String "." e).
Proof.
  induction n as [|n IH]; intros pre suf Hlen Hp.
  - destruct pre; [|discriminate]. left. split; [reflexivity|].
    exists suf. split; [exact Hp|]. now left.
  - destruct (str_snoc n pre Hlen) as (pre0 & c & -> & Hpre0).
    clear Hlen. subst n. rewrite str_app_assoc.
    change (String c EmptyString +:+ suf) with (String c suf).
    rewrite Ext_loop_step.
    destruct (IsPathSeparator c) eqn:Hs.
    + left. split; [reflexivity|]. exists suf. split; [exact Hp|].
      right. exists pre0. unfold IsPathSeparator in Hs.
      apply Ascii.eqb_eq in Hs. now subst c.
    + destruct (Ascii.eqb c ".") eqn:Hd.
      * right. apply Ascii.eqb_eq in Hd. subst c.
        exists pre0, suf. repeat split. exact Hp.
      * apply (IH pre0 (String c suf) eq_refl).
        cbn [plain]. now rewrite Hs, Hd.
Qed.

Lemma Ext_shape (path : string) :
  (Ext path = EmptyString /\
   exists e : string,
     plain e = true /\
     (path = e \/ exists stem, path = stem +:+ String "/" e))
  \/
  (exists stem e : string,
      path = stem +:+ String "." e /\ plain e = true /\
      Ext path = String "." e).
Proof.
  pose proof (Ext_loop_shape (String.length path) path EmptyString eq_refl
                eq_refl) as H.
  rewrite str_app_nil_r in H. exact H.
Qed.

Lemma Ext_dot (stem e : string) :
  plain e = true -> Ext (stem +:+ String "." e) = String "." e.
Proof.
  intros Hp. unfold Ext.
  change (String "." e) with (String "." EmptyString +:+ e).
  rewrite <- str_app_assoc, str_length_app, (Ext_loop_plain e _ Hp).
  rewrite str_app_assoc, str_length_app.
  change (String "." EmptyString +:+ e) with (String "." e).
  cbn [String.length].
  replace (String.length stem + 1) with (S (String.length stem)) by lia.
  now rewrite Ext_loop_step.
Qed.

Lemma Ext_plain (e : string) : plain e = true -> Ext e = EmptyString.
Proof.
  intros Hp. unfold Ext.
  pose proof (Ext_loop_plain e EmptyString Hp) as H.
  exact H.
Qed.

Lemma Ext_after_separator (stem e : string) :
  plain e = true -> Ext (stem +:+ String "/" e) = EmptyString.
Proof.
  intros Hp. unfold Ext.
  change (String "/" e) with (String "/" EmptyString +:+ e).
  rewrite <- str_app_assoc, str_length_app, (Ext_loop_plain e _ Hp).
  rewrite str_app_assoc, str_length_app.
  change (String "/" EmptyString +:+ e) with (String "/" e).
  cbn [String.length].
  replace (String.length stem + 1) with (S (String.length stem)) by lia.
  now rewrite Ext_loop_step.
Qed.

Lemma Ext_suffix (path e : string) :
  Ext path = String "." e -> exists stem, path = stem +:+ String "." e.
Proof.
  intros HE.
  destruct (Ext_shape path) as [[H0 _] | (stem & e' & Hpath & _ & HE')].
  - rewrite H0 in HE. discriminate.
  - exists stem. rewrite HE in HE'. injection HE' as ->. exact Hpath.
Qed.

Lemma Ext_empty_iff (path : string) :
  Ext path = EmptyString <->
  exists e : string,
    plain e = true /\
    (path = e \/ exists stem, path = stem +:+ String "/" e).
Proof.
  split.
  - intros HE.
    destruct (Ext_shape path) as [[_ H] | (stem & e' & _ & _ & HE')].
    + exact H.
    + rewrite HE in HE'. discriminate.
  - intros (e & Hp & [-> | [stem ->]]).
    + now apply Ext_plain.
    + now apply Ext_after_separator.
Qed.

(** X13: [Ext] gives the part of the path from the last dot of its last
    element: for a string [e] without dot and separator, the extension is
    dot-[e] exactly when the path ends in dot-[e]; it is empty exactly when
    the path has no dot after its last separator (or no dot at all and no
    separator); and these are the only two outcomes. *)
Theorem Ext_spec (path : string) :
  (forall e : string,
      plain e = true ->
      (Ext path = String "." e <-> exists stem, path = stem +:+ String "." e)) /\
  (Ext path = EmptyString <->
   exists e : string,
     plain e = true /\
     (path = e \/ exists stem, path = stem +:+ String "/" e)) /\
  (Ext path = EmptyString \/
   exists e : string, plain e = true /\ Ext path = String "." e).
Proof.
  split; [|split].
  - intros e Hp. split.
    + apply Ext_suffix.
    + intros [stem ->]. now apply Ext_dot.
  - apply Ext_empty_iff.
  - destruct (Ext_shape path) as [[H0 _] | (stem & e' & _ & Hp & HE')].
    + now left.
    + right. now exists e'.
Qed.

Lemma Ext_spec_witness :
  plain "gz" = true /\ Ext "build/image.tar.gz" = ".gz".
Proof.
  split; [reflexivity|].
  apply (proj1 (Ext_spec "build/image.tar.gz") "gz" eq_refl).
  exists "build/image.tar". reflexivity.
Defined.

(** X14: [GetApkoConfigOrPreset] accepts exactly the file names that end in
    .yaml or .yml, whatever comes before the ending (nothing at all, dots,
    directories) and whatever the prefix; it then returns the name as
    given. *)
Theorem GetApkoConfigOrPreset_accepts (MntPrefix prefix file : string) :
  GetApkoConfigOrPreset MntPrefix prefix file = (file, None) <->
  exists stem : string, file = stem +:+ ".yaml" \/ file = stem +:+ ".yml".
Proof.
  split.
  - unfold GetApkoConfigOrPreset.
    destruct (String.eqb file EmptyString); [discriminate|].
    destruct (String.eqb (Ext file) EmptyString); [discriminate|].
    destruct (String.eqb (Ext file) ".yaml") eqn:Hy.
    + intros _. apply String.eqb_eq in Hy.
      destruct (Ext_suffix file "yaml" Hy) as [stem H].
      exists stem. now left.
    + destruct (String.eqb (Ext file) ".yml") eqn:Hm; [|discriminate].
      intros _. apply String.eqb_eq in Hm.
      destruct (Ext_suffix file "yml" Hm) as [stem H].
      exists stem. now right.
  - intros [stem [-> | ->]].
    + assert (HE : Ext (stem +:+ ".yaml") = ".yaml")
        by (apply (Ext_dot stem "yaml"); reflexivity).
      unfold GetApkoConfigOrPreset. rewrite HE.
      destruct (String.eqb (stem +:+ ".yaml") EmptyString) eqn:E;
        [|reflexivity].
      apply String.eqb_eq in E. destruct stem; discriminate.
    + assert (HE : Ext (stem +:+ ".yml") = ".yml")
        by (apply (Ext_dot stem "yml"); reflexivity).
      unfold GetApkoConfigOrPreset. rewrite HE.
      destruct (String.eqb (stem +:+ ".yml") EmptyString) eqn:E;
        [|reflexivity].
      apply String.eqb_eq in E. destruct stem; discriminate.
Qed.

Lemma GetApkoConfigOrPreset_accepts_witness :
  GetApkoConfigOrPreset "/mnt" EmptyString "conf.d/.yaml"
  = ("conf.d/.yaml", None).
Proof.
  apply (proj2 (GetApkoConfigOrPreset_accepts "/mnt" EmptyString "conf.d/.yaml")).
  exists "conf.d/". left. reflexivity.
Defined.

(** X15: [GetApkoConfigOrPreset] answers "config file must have an
    extension" exactly for the non-empty names whose last element has no
    dot: a name without dot and separator, or one where no dot follows the
    last separator, such as a name that ends in a separator. *)
Theorem GetApkoConfigOrPreset_no_extension (MntPrefix prefix file : string) :
  GetApkoConfigOrPreset MntPrefix prefix file
  = (EmptyString, Some (Errorf "config file must have an extension")) <->
  file <> EmptyString /\
  exists e : string,
    plain e = true /\
    (file = e \/ exists stem, file = stem +:+ String "/" e).
Proof.
  pose proof (Ext_empty_iff file) as HE.
  unfold GetApkoConfigOrPreset. split.
  - destruct (String.eqb file EmptyString) eqn:Ef; [discriminate|].
    apply String.eqb_neq in Ef.
    destruct (String.eqb (Ext file) EmptyString) eqn:Ee.
    + intros _. apply String.eqb_eq in Ee. split; [exact Ef|].
      now apply HE.
    + destruct (negb (String.eqb (Ext file) ".yaml") &&
                negb (String.eqb (Ext file) ".yml")); discriminate.
  - intros [Hf Hex]. apply HE in Hex.
    now rewrite (eqb_empty_false _ Hf), Hex.
Qed.

Lemma GetApkoConfigOrPreset_no_extension_witness :
  GetApkoConfigOrPreset "/mnt" EmptyString "apko.yaml/"
  = (EmptyString, Some (Errorf "config file must have an extension")).
Proof.
  apply (proj2 (GetApkoConfigOrPreset_no_extension "/mnt" EmptyString
                  "apko.yaml/")).
  split; [discriminate|].
  exists EmptyString. split; [reflexivity|].
  right. exists "apko.yaml". reflexivity.
Defined.
